(** * CMSDataProcessor: header normalizer, version tracker and the
      per-dataset fetch-and-transform pipeline of [main.py]. *)

From Stdlib Require Import ZArith Ascii String List Lia.
From stdpp Require Import base option list strings gmap.
Import ListNotations.

Local Open Scope string_scope.
Local Open Scope list_scope.

(** ** Characters and strings

    A Python [str] is modelled by [string]; each [ascii] is read as the
    code point of the same number (0..255).  On that range Python's
    [str.isupper] holds for A-Z and for the Latin-1 capitals U+00C0..U+00DE
    other than the multiplication sign U+00D7, and [str.lower] adds 32 to
    such a capital. *)

Definition isupper (c : ascii) : bool :=
  let n := nat_of_ascii c in
  ((65 <=? n) && (n <=? 90))%nat
  || ((192 <=? n) && (n <=? 222) && negb (n =? 215))%nat.

Definition lower (c : ascii) : ascii :=
  if isupper c then ascii_of_nat (nat_of_ascii c + 32) else c.

(** [s.lstrip(ch)] for a one-character argument. *)
Fixpoint lstrip (ch : ascii) (s : string) : string :=
  match s with
  | String c s' => if Ascii.eqb c ch then lstrip ch s' else s
  | EmptyString => EmptyString
  end.

(** [s.replace(a, b)] for one-character [a] and [b]. *)
Fixpoint replace (a b : ascii) (s : string) : string :=
  match s with
  | String c s' => String (if Ascii.eqb c a then b else c) (replace a b s')
  | EmptyString => EmptyString
  end.

(** [''.join(parts)]. *)
Definition join (parts : list string) : string :=
  fold_right String.append EmptyString parts.

(** The characters of a string, as the comprehension [for c in col_name]
    visits them. *)
Definition chars (s : string) : list ascii := list_ascii_of_string s.

Module Normalizer.

(** The comprehension's element: ['_' + c.lower() if c.isupper() else c]. *)
Definition snake_char (c : ascii) : string :=
  if isupper c then String "_" (String (lower c) EmptyString)
  else String c EmptyString.

(** The joined comprehension, before [lstrip] and [replace]. *)
Definition joined (s : string) : string := join (map snake_char (chars s)).

(** [_to_snake_case], main.py lines 39-45. *)
Definition _to_snake_case (col_name : string) : string :=
  replace " " "_" (lstrip "_" (joined col_name)).

(** First character tests used to state what the result begins with. *)
Definition starts_with (ch : ascii) (s : string) : bool :=
  match s with
  | String c _ => Ascii.eqb c ch
  | EmptyString => false
  end.

(** Neither an uppercase letter nor a space. *)
Definition plain_char (c : ascii) : bool :=
  negb (isupper c) && negb (Ascii.eqb c " ").

End Normalizer.

Import Normalizer.

(** ** The world the pipeline acts on *)

Module Pipeline.

(** Exceptions the pipeline can meet.  [KeyError], [IndexError] and
    [UnboundLocalError] come from the interpreter; [FileNotFoundError] from
    the file system; [EnvError] stands for whatever [requests], [pandas],
    [sqlite3] or the operating system raise, with its message. *)
Inductive exn :=
| KeyError (key : string)
| IndexError
| UnboundLocalError (name : string)
| FileNotFoundError (path : string)
| EnvError (msg : string).

(** [str(e)]. *)
Definition str (e : exn) : string :=
  match e with
  | KeyError key => "'" +:+ key +:+ "'"
  | IndexError => "list index out of range"
  | UnboundLocalError name =>
      "cannot access local variable '" +:+ name
      +:+ "' where it is not associated with a value"
  | FileNotFoundError path =>
      "[Errno 2] No such file or directory: '" +:+ path +:+ "'"
  | EnvError msg => msg
  end.

(** A catalog entry is a JSON object; a key that may be missing is an
    [option].  Values have the types the catalog format gives them. *)
Record distribution_entry := { downloadURL : option string }.

Record descriptor := {
  identifier : option string;
  modified : option string;
  theme : option (list string);
  distribution : option (list distribution_entry)
}.

(** What a file holds, in the order it was written: byte strings written
    through [f.write], and CSV records (one list of fields per line)
    written through [DataFrame.to_csv]. *)
Inductive piece :=
| Bytes (b : string)
| Record_ (fields : list string).

(** A cell of a frame read with [dtype=str]: a text, or a missing value
    (NaN), which [to_csv] writes as the empty field. *)
Definition cell := option string.

Definition cell_text (c : cell) : string := default "" c.

Record frame := { columns : list string; rows : list (list cell) }.

(** The table the reader builds from a CSV file, before it looks for
    missing values: the labels it gives the columns, and for each data row
    one text per column.  For a file whose lines all have as many fields as
    the header line, with distinct non-empty names, these are the fields of
    the lines.  How the reader labels columns, treats quotes, and fits a
    line of another length to the columns (it takes the leading field of a
    longer line as the row's index and pads a shorter one) is the
    tokenizer's: it is not modelled, and for such files the rows of the
    table are not the fields of the lines. *)
Record table := { header : list string; records : list (list string) }.

(** The texts [pd.read_csv] takes for a missing value when, as on line 74,
    [na_filter] and [keep_default_na] are left at their defaults;
    [dtype=str] does not change that. *)
Definition STR_NA_VALUES : list string :=
  [""; "#N/A"; "#N/A N/A"; "#NA"; "-1.#IND"; "-1.#QNAN"; "-NaN"; "-nan";
   "1.#IND"; "1.#QNAN"; "<NA>"; "N/A"; "NA"; "NULL"; "NaN"; "None"; "n/a";
   "nan"; "null"].

Definition is_na (field : string) : bool :=
  existsb (String.eqb field) STR_NA_VALUES.

Definition na_filter (field : string) : cell :=
  if is_na field then None else Some field.

(** The frame [pd.read_csv(..., dtype=str)] makes of that table: no type
    is inferred, a missing-value marker becomes NaN. *)
Definition read_frame (t : table) : frame :=
  {| columns := header t; rows := map (map na_filter) (records t) |}.

(** The text that ends up in the output for a field of the input. *)
Definition written_text (field : string) : string :=
  cell_text (na_filter field).

(** A row of the tracking table [processed_files], keyed by [dataset_id]:
    ([last_modified], [last_processed]). *)
Abbreviation processed_file := (string * string)%type.

(** Every operation on the outside world that the pipeline attempts. *)
Inductive op :=
| SqlSelect (dataset_id : string)
| SqlReplace (dataset_id : string)
| HttpGet (url : string)
| HttpChunk (url : string) (k : nat)
| FileOpenWb (path : string)
| FileWrite (path : string) (k : nat)
| CsvOpen (path : string)
| CsvChunk (path : string) (k : nat)
| ToCsv (path : string) (write_mode : bool) (k : nat)
| Remove (path : string).

Record response := { status_code : Z; iter_content : list string }.

(** The environment of one run: what each URL answers, how the CSV reader
    tokenizes a file, which attempted operations raise (and with what
    message), and what [datetime.now().isoformat()] returns. *)
Record env := {
  http : string → response;
  csv_parse : list piece → string + table;
  fault : op → option string;
  now : string
}.

Record world := {
  tracker : gmap string processed_file;
  files : gmap string (list piece);
  log : list string;
  io : list op
}.

Definition set_tracker (t : gmap string processed_file) (w : world) : world :=
  {| tracker := t; files := files w; log := log w; io := io w |}.
Definition set_files (f : gmap string (list piece)) (w : world) : world :=
  {| tracker := tracker w; files := f; log := log w; io := io w |}.
Definition set_log (l : list string) (w : world) : world :=
  {| tracker := tracker w; files := files w; log := l; io := io w |}.
Definition set_io (i : list op) (w : world) : world :=
  {| tracker := tracker w; files := files w; log := log w; io := i |}.

(** *** A state monad with exceptions

    A computation returns a value or raises, and in both cases leaves the
    world as it was at that point: the effects made before an exception
    stay. *)
Inductive result (A : Type) :=
| Ok (a : A)
| Raise (e : exn).
Arguments Ok {A} a.
Arguments Raise {A} e.

Definition M (A : Type) : Type := world → result A * world.

Definition ret {A} (a : A) : M A := fun w => (Ok a, w).

Definition bind {A B} (c : M A) (k : A → M B) : M B :=
  fun w => match c w with
           | (Ok a, w') => k a w'
           | (Raise e, w') => (Raise e, w')
           end.

Definition raise {A} (e : exn) : M A := fun w => (Raise e, w).

(** [try: body  except Exception as e: handler e]. *)
Definition try_except {A} (body : M A) (handler : exn → M A) : M A :=
  fun w => match body w with
           | (Ok a, w') => (Ok a, w')
           | (Raise e, w') => handler e w'
           end.

(** A pure step that returns or raises without touching the world. *)
Definition lift {A} (r : result A) : M A := fun w => (r, w).

Definition get_world : M world := fun w => (Ok w, w).
Definition modify (f : world → world) : M unit := fun w => (Ok tt, f w).

Notation "'let*' x ':=' c 'in' k" := (bind c (fun x => k))
  (at level 10, x name, c at level 100, k at level 200).
Notation "c '>>' k" := (bind c (fun _ => k))
  (at level 90, right associativity).

(** Attempt an operation: it is recorded in the trace, and raises if the
    environment says so. *)
Definition attempt (E : env) (o : op) : M unit :=
  fun w =>
    let w' := set_io (io w ++ [o]) w in
    match fault E o with
    | Some msg => (Raise (EnvError msg), w')
    | None => (Ok tt, w')
    end.

Definition print (line : string) : M unit :=
  modify (fun w => set_log (log w ++ [line]) w).

(** *** Version tracker: the table [processed_files] *)

(** [SELECT last_modified FROM processed_files WHERE dataset_id = ?]
    followed by [fetchone()], and the returned expression
    [not result or result[0] != modified_date]. *)
Definition stale (t : gmap string processed_file)
    (dataset_id modified_date : string) : bool :=
  match t !! dataset_id with
  | None => true
  | Some (last_modified, _) => negb (String.eqb last_modified modified_date)
  end.

(** [_needs_update], main.py lines 97-105. *)
Definition _needs_update (E : env) (dataset_id modified_date : string) : M bool :=
  attempt E (SqlSelect dataset_id) >>
  let* w := get_world in
  ret (stale (tracker w) dataset_id modified_date).

(** [_update_metadata], main.py lines 107-114: [INSERT OR REPLACE] on the
    primary key [dataset_id]. *)
Definition _update_metadata (E : env) (dataset_id modified_date : string) : M unit :=
  attempt E (SqlReplace dataset_id) >>
  modify (fun w =>
    set_tracker (<[dataset_id := (modified_date, now E)]> (tracker w)) w).

(** *** Files *)

Definition output_path_of (dataset_id : string) : string :=
  "data/processed/" +:+ dataset_id +:+ ".csv".

Definition temp_file_of (dataset_id : string) : string :=
  "data/processed/temp_" +:+ dataset_id +:+ ".csv".

(** [open(path, 'wb')]: the file is created, or emptied if it exists. *)
Definition open_wb (E : env) (path : string) : M unit :=
  attempt E (FileOpenWb path) >>
  modify (fun w => set_files (<[path := []]> (files w)) w).

(** [f.write(chunk)], the [k]-th of the stream. *)
Definition f_write (E : env) (path : string) (k : nat) (chunk : string) : M unit :=
  attempt E (FileWrite path k) >>
  modify (fun w =>
    set_files (<[path := default [] (files w !! path) ++ [Bytes chunk]]> (files w)) w).

(** The loop over [response.iter_content(chunk_size=8192)], lines 67-69;
    [k] counts the pulls on the stream, the last of which ends it. *)
Fixpoint write_body (E : env) (url path : string) (k : nat)
    (chunks : list string) : M unit :=
  match chunks with
  | [] => attempt E (HttpChunk url k)
  | chunk :: rest =>
      attempt E (HttpChunk url k) >>
      (if String.eqb chunk "" then ret tt else f_write E path k chunk) >>
      write_body E url path (S k) rest
  end.

(** Lines 65-69: stream the body to the staging file. *)
Definition download (E : env) (url temp_file : string) (r : response) : M unit :=
  open_wb E temp_file >>
  write_body E url temp_file 0 (iter_content r).

(** The records [to_csv] writes for the rows of a chunk, each cell as
    text. *)
Definition data_lines (chunk : list (list cell)) : list piece :=
  map (fun row => Record_ (map cell_text row)) chunk.

(** The lines [to_csv] writes for a chunk: the header line if asked, then
    the rows. *)
Definition csv_lines (header : bool) (cols : list string)
    (chunk : list (list cell)) : list piece :=
  (if header then [Record_ cols] else []) ++ data_lines chunk.

(** [chunk.to_csv(path, mode=..., header=..., index=False)]: mode ['w']
    ([write_mode = true]) replaces the file, mode ['a'] extends it (creating
    it if missing). *)
Definition to_csv (E : env) (path : string) (write_mode header : bool)
    (cols : list string) (chunk : list (list cell)) (k : nat) : M unit :=
  attempt E (ToCsv path write_mode k) >>
  modify (fun w =>
    let before := if write_mode then [] else default [] (files w !! path) in
    set_files (<[path := before ++ csv_lines header cols chunk]> (files w)) w).

(** The reader made by [pd.read_csv(..., chunksize=n)] hands out the rows
    in blocks of [n], the last one shorter when [n] does not divide the row
    count; a frame without rows gives one empty first chunk. *)
Fixpoint blocks (fuel n : nat) (rs : list (list cell)) : list (list (list cell)) :=
  match fuel with
  | O => []
  | S fuel' =>
      match rs with
      | [] => []
      | _ :: _ => take n rs :: blocks fuel' n (drop n rs)
      end
  end.

Definition read_chunks (n : nat) (rs : list (list cell)) : list (list (list cell)) :=
  match rs with
  | [] => [[]]
  | _ :: _ => blocks (length rs) n rs
  end.

(** The loop over the chunks, lines 73-86; [k] counts the pulls on the
    reader, the last of which ends the iteration. *)
Fixpoint write_chunks (E : env) (temp_file output_path : string)
    (cols : list string) (first_chunk : bool) (k : nat)
    (chunks : list (list (list cell))) : M unit :=
  match chunks with
  | [] => attempt E (CsvChunk temp_file k)
  | chunk :: rest =>
      attempt E (CsvChunk temp_file k) >>
      (if first_chunk
       then to_csv E output_path true true (map _to_snake_case cols) chunk k
       else to_csv E output_path false false cols chunk k) >>
      write_chunks E temp_file output_path cols false (S k) rest
  end.

(** Lines 73-86 with the reader's construction: [pd.read_csv] rejects a
    chunk size below 1, opens the staging file and reads its header. *)
Definition transform (E : env) (chunksize : nat)
    (temp_file output_path : string) : M unit :=
  if (chunksize =? 0)%nat
  then raise (EnvError "'chunksize' must be an integer >=1")
  else
    attempt E (CsvOpen temp_file) >>
    let* w := get_world in
    match files w !! temp_file with
    | None => raise (FileNotFoundError temp_file)
    | Some content =>
        match csv_parse E content with
        | inl msg => raise (EnvError msg)
        | inr t =>
            let df := read_frame t in
            write_chunks E temp_file output_path (columns df) true 0
              (read_chunks chunksize (rows df))
        end
    end.

(** [os.remove(path)], line 89. *)
Definition os_remove (E : env) (path : string) : M unit :=
  attempt E (Remove path) >>
  let* w := get_world in
  match files w !! path with
  | None => raise (FileNotFoundError path)
  | Some _ => modify (set_files (delete path (files w)))
  end.

(** *** The pipeline for one dataset *)

(** [dataset['distribution'][0]['downloadURL']], line 57. *)
Definition download_url_of (dataset : descriptor) : result string :=
  match distribution dataset with
  | None => Raise (KeyError "distribution")
  | Some [] => Raise IndexError
  | Some (d0 :: _) =>
      match downloadURL d0 with
      | None => Raise (KeyError "downloadURL")
      | Some url => Ok url
      end
  end.

(** [dataset.get('modified', '')], line 50. *)
Definition modified_of (dataset : descriptor) : string :=
  default "" (modified dataset).

(** The chunk size of line 76. *)
Definition chunksize : nat := 5000.

(** The three lines the pipeline prints (lines 54, 92 and 95). *)
Definition skip_line (dataset_id : string) : string :=
  "Skipping " +:+ dataset_id +:+ " - already up to date".

Definition success_line (dataset_id : string) : string :=
  "Successfully processed " +:+ dataset_id.

Definition error_line (dataset_id : string) (e : exn) : string :=
  "Error processing " +:+ dataset_id +:+ ": " +:+ str e.

(** Lines 62-92, once the response is there and its status is 200. *)
Definition store (E : env) (n : nat) (dataset_id modified_date url : string)
    (r : response) : M unit :=
  let temp_file := temp_file_of dataset_id in
  download E url temp_file r >>
  transform E n temp_file (output_path_of dataset_id) >>
  os_remove E temp_file >>
  _update_metadata E dataset_id modified_date >>
  print (success_line dataset_id).

(** Lines 50-92: the body of the [try] after [dataset_id] is bound. *)
Definition body (E : env) (n : nat) (dataset : descriptor)
    (dataset_id : string) : M unit :=
  let modified_date := modified_of dataset in
  let* needed := _needs_update E dataset_id modified_date in
  if negb needed
  then print (skip_line dataset_id)
  else
    let* download_url := lift (download_url_of dataset) in
    attempt E (HttpGet download_url) >>
    let r := http E download_url in
    if (status_code r =? 200)%Z
    then store E n dataset_id modified_date download_url r
    else ret tt.

(** The handler of line 94-95, with [dataset_id] as the local variable it
    reads: unbound when the lookup of line 49 is what raised. *)
Definition handler (dataset_id : option string) (e : exn) : M unit :=
  match dataset_id with
  | None => raise (UnboundLocalError "dataset_id")
  | Some id => print (error_line id e)
  end.

(** [_process_dataset], lines 47-95, for a chunk size [n]. *)
Definition process_with (E : env) (n : nat) (dataset : descriptor) : M unit :=
  match identifier dataset with
  | None => try_except (raise (KeyError "identifier")) (handler None)
  | Some dataset_id =>
      try_except (body E n dataset dataset_id) (handler (Some dataset_id))
  end.

Definition _process_dataset (E : env) (dataset : descriptor) : M unit :=
  process_with E chunksize dataset.

(** *** What the statements below observe *)

(** The staging file after a complete download: the non-empty chunks of the
    body, in order. *)
Fixpoint staged (chunks : list string) : list piece :=
  match chunks with
  | [] => []
  | chunk :: rest =>
      if String.eqb chunk "" then staged rest else Bytes chunk :: staged rest
  end.

(** The world once the tracker was read and the GET was made. *)
Definition fetched (w : world) (dataset_id url : string) : world :=
  set_io (io w ++ [SqlSelect dataset_id; HttpGet url]) w.

(** The world after the staleness check found nothing to do. *)
Definition skipped (w : world) (dataset_id : string) : world :=
  {| tracker := tracker w; files := files w;
     log := log w ++ [skip_line dataset_id];
     io := io w ++ [SqlSelect dataset_id] |}.

(** The modes of the [to_csv] calls made on [path], in order: [true] for
    ['w'], [false] for ['a']. *)
Definition write_modes (path : string) (l : list op) : list bool :=
  flat_map (fun o => match o with
                     | ToCsv p m _ => if String.eqb p path then [m] else []
                     | _ => []
                     end) l.

(** A relation between the world before and after a computation holds
    whatever the computation's result. *)
Definition keeps (R : world → world → Prop) {A} (c : M A) : Prop :=
  ∀ w, R w (snd (c w)).

(** Two worlds agree on a component. *)
Definition same {X} (f : world → X) (w w' : world) : Prop := f w' = f w.

(** The operations a run added to the trace of a world [w]. *)
Definition performed (w w' : world) : list op := drop (length (io w)) (io w').

Definition is_network (o : op) : bool :=
  match o with
  | HttpGet _ | HttpChunk _ _ => true
  | _ => false
  end.

Definition is_file_io (o : op) : bool :=
  match o with
  | FileOpenWb _ | FileWrite _ _ | CsvOpen _ | CsvChunk _ _
  | ToCsv _ _ _ | Remove _ => true
  | _ => false
  end.

End Pipeline.

Import Pipeline.

(** ** Sample data for concrete runs *)

Module Sample.

Definition table0 : table :=
  {| header := ["A B"; "C"];
     records := [["1"; "2"]; ["3"; "NA"]; ["5"; "6"]] |}.

(** The same without a missing-value marker. *)
Definition table1 : table :=
  {| header := ["A B"; "C"];
     records := [["1"; "2"]; ["3"; "4"]; ["5"; "6"]] |}.

Definition nl : string := String "010" "".

(** The body as the server sends it, in three chunks, the second empty. *)
Definition body0 : list string :=
  ["A B,C" +:+ nl +:+ "1,2" +:+ nl; ""; "3,NA" +:+ nl +:+ "5,6" +:+ nl].

(** A server that answers 200 and a reader that tokenizes the body into
    [table0]; nothing fails. *)
Definition env_ok : env :=
  {| http := fun _ => {| status_code := 200; iter_content := body0 |};
     csv_parse := fun _ => inr table0;
     fault := fun _ => None;
     now := "2024-05-01T12:00:00" |}.

(** The same with a body that holds no missing-value marker. *)
Definition env_plain : env :=
  {| http := fun _ => {| status_code := 200; iter_content := body0 |};
     csv_parse := fun _ => inr table1;
     fault := fun _ => None;
     now := "2024-05-01T12:00:00" |}.

(** A server that answers 500. *)
Definition env_500 : env :=
  {| http := fun _ => {| status_code := 500; iter_content := [] |};
     csv_parse := fun _ => inr table0;
     fault := fun _ => None;
     now := "2024-05-02T08:30:00" |}.

Definition d0 : descriptor :=
  {| identifier := Some "ds1";
     modified := Some "2024-01-01";
     theme := Some ["Hospitals"];
     distribution := Some [ {| downloadURL := Some "http://cms.example/ds1.csv" |} ] |}.

Definition d_no_modified : descriptor :=
  {| identifier := Some "ds1";
     modified := None;
     theme := Some ["Hospitals"];
     distribution := Some [ {| downloadURL := Some "http://cms.example/ds1.csv" |} ] |}.

Definition d_no_identifier : descriptor :=
  {| identifier := None;
     modified := Some "2024-01-01";
     theme := Some ["Hospitals"];
     distribution := Some [ {| downloadURL := Some "http://cms.example/ds1.csv" |} ] |}.

Definition w0 : world := {| tracker := ∅; files := ∅; log := []; io := [] |}.

(** A world whose staging file for ["ds1"] is already on disk, next to an
    older output file. *)
Definition w_staged : world :=
  {| tracker := ∅;
     files := <[temp_file_of "ds1" := staged body0]>
                (<[output_path_of "ds1" := [Record_ ["old"]; Record_ ["0"]]]> ∅);
     log := [];
     io := [] |}.

End Sample.

(** ** The batch orchestrator: what [process_data] selects *)

Module Orchestrator.

(** The test of the comprehension on lines 123-126:
    ['Hospitals' in d.get('theme', [])]. *)
Definition is_hospital (d : descriptor) : bool :=
  existsb (String.eqb "Hospitals") (default [] (theme d)).

(** [hospital_datasets], lines 123-126. *)
Definition hospital_datasets (data : list descriptor) : list descriptor :=
  List.filter is_hospital data.

End Orchestrator.

Import Orchestrator.

(** ** Further observations *)

Module Observe.

(** The string holds no occurrence of a character. *)
Definition lacks (ch : ascii) (s : string) : bool :=
  forallb (fun c => negb (Ascii.eqb c ch)) (chars s).

(** The string holds no uppercase letter. *)
Definition no_upper (s : string) : bool :=
  forallb (fun c => negb (isupper c)) (chars s).

(** Every file but those at [paths] is as it was. *)
Definition outside (paths : list string) (w w' : world) : Prop :=
  ∀ p, p ∉ paths → files w' !! p = files w !! p.

(** Every row of the tracking table but that of [dataset_id] is as it
    was. *)
Definition other_rows (dataset_id : string) (w w' : world) : Prop :=
  ∀ id', id' ≠ dataset_id → tracker w' !! id' = tracker w !! id'.

(** The bytes written to a file through [f.write], put end to end. *)
Definition raw_bytes (content : list piece) : string :=
  join (flat_map (fun p => match p with
                           | Bytes b => [b]
                           | Record_ _ => []
                           end) content).

(** No network and no file operation raises; the two statements on the
    tracking table may. *)
Definition steady (E : env) : Prop :=
  ∀ o, is_network o || is_file_io o = true → fault E o = None.

End Observe.

Import Observe.

(** ** Sample environments that fail *)

Module Faulty.

(** The reader rejects the staged file. *)
Definition env_bad_csv : env :=
  {| http := fun _ => {| status_code := 200; iter_content := Sample.body0 |};
     csv_parse := fun _ => inl "No columns to parse from file";
     fault := fun _ => None;
     now := "2024-05-03T09:00:00" |}.

(** The write to the tracking table raises. *)
Definition env_db_locked : env :=
  {| http := fun _ => {| status_code := 200; iter_content := Sample.body0 |};
     csv_parse := fun _ => inr Sample.table1;
     fault := fun o => match o with
                       | SqlReplace _ => Some "database is locked"
                       | _ => None
                       end;
     now := "2024-05-03T09:00:00" |}.

(** The reader raises on its second pull. *)
Definition env_truncated : env :=
  {| http := fun _ => {| status_code := 200; iter_content := Sample.body0 |};
     csv_parse := fun _ => inr Sample.table1;
     fault := fun o => match o with
                       | CsvChunk _ 1 => Some "Error tokenizing data"
                       | _ => None
                       end;
     now := "2024-05-03T09:00:00" |}.

(** A later run: the catalog has a newer token. *)
Definition env_later : env :=
  {| http := fun _ => {| status_code := 200; iter_content := Sample.body0 |};
     csv_parse := fun _ => inr Sample.table0;
     fault := fun _ => None;
     now := "2024-06-01T07:45:00" |}.

Definition d0_newer : descriptor :=
  {| identifier := Some "ds1";
     modified := Some "2024-02-15";
     theme := Some ["Hospitals"];
     distribution :=
       Some [ {| downloadURL := Some "http://cms.example/ds1.csv" |} ] |}.

Definition d_no_distribution : descriptor :=
  {| identifier := Some "ds2";
     modified := Some "2024-01-01";
     theme := Some ["Hospitals"];
     distribution := None |}.

Definition d_other_theme : descriptor :=
  {| identifier := Some "ds3";
     modified := Some "2024-01-01";
     theme := Some ["Physicians"; "hospitals"];
     distribution :=
       Some [ {| downloadURL := Some "http://cms.example/ds3.csv" |} ] |}.

Definition d_no_theme : descriptor :=
  {| identifier := Some "ds4";
     modified := Some "2024-01-01";
     theme := None;
     distribution :=
       Some [ {| downloadURL := Some "http://cms.example/ds4.csv" |} ] |}.

(** The server cannot be reached. *)
Definition env_unreachable : env :=
  {| http := fun _ => {| status_code := 200; iter_content := Sample.body0 |};
     csv_parse := fun _ => inr Sample.table1;
     fault := fun o => match o with
                       | HttpGet _ => Some "Connection refused"
                       | _ => None
                       end;
     now := "2024-05-03T09:00:00" |}.

(** The connection breaks on the third pull of the body. *)
Definition env_broken_stream : env :=
  {| http := fun _ => {| status_code := 200; iter_content := Sample.body0 |};
     csv_parse := fun _ => inr Sample.table1;
     fault := fun o => match o with
                       | HttpChunk _ 2 => Some "Connection broken"
                       | _ => None
                       end;
     now := "2024-05-03T09:00:00" |}.

(** A table with a header line and no data line. *)
Definition table_empty : table := {| header := ["A B"; "C"]; records := [] |}.

Definition env_header_only : env :=
  {| http := fun _ => {| status_code := 200; iter_content := Sample.body0 |};
     csv_parse := fun _ => inr table_empty;
     fault := fun _ => None;
     now := "2024-05-03T09:00:00" |}.

End Faulty.

(** ** A tokenizer for plain CSV files *)

Module Csv.

(** [s.split(sep)] for a one-character separator. *)
Fixpoint split (sep : ascii) (s : string) : list string :=
  match s with
  | EmptyString => [EmptyString]
  | String c s' =>
      if Ascii.eqb c sep then EmptyString :: split sep s'
      else match split sep s' with
           | first :: others => String c first :: others
           | [] => [String c EmptyString]
           end
  end.

(** The lines of a text that ends its lines with a line feed; blank lines
    are skipped, as the reader does. *)
Definition lines (text : string) : list string :=
  List.filter (fun l => negb (String.eqb l "")) (split "010" text).

(** What the reader builds from the bytes of a file without quotes whose
    lines all have as many comma-separated fields as the first: the first
    line gives the labels, every other line a row. *)
Definition split_csv (content : list piece) : string + table :=
  match lines (raw_bytes content) with
  | [] => inl "No columns to parse from file"
  | h :: rest =>
      inr {| header := split "," h; records := map (split ",") rest |}
  end.

(** A body of 5001 data lines, one more than the chunk size of line 76;
    the first holds the missing-value marker [NA]. *)
Definition body_na : list string :=
  ["A B,C" +:+ Sample.nl; "3,NA" +:+ Sample.nl]
  ++ repeat ("1,2" +:+ Sample.nl) 5000.

Definition table_na : table :=
  {| header := ["A B"; "C"];
     records := ["3"; "NA"] :: repeat ["1"; "2"] 5000 |}.

(** A server that answers 200 with that body; the reader tokenizes the
    staged bytes; nothing fails. *)
Definition env_na : env :=
  {| http := fun _ => {| status_code := 200; iter_content := body_na |};
     csv_parse := split_csv;
     fault := fun _ => None;
     now := "2024-05-04T10:00:00" |}.

End Csv.

(** * Facts *)

(** ** Strings *)

Lemma append_cons c (s t : string) : String c s +:+ t = String c (s +:+ t).
Proof. reflexivity. Qed.

Lemma append_nil (t : string) : "" +:+ t = t.
Proof. reflexivity. Qed.

(** ** Header normalizer *)

Lemma upper_facts (c : ascii) :
  isupper c = true →
  Ascii.eqb c "_" = false ∧ Ascii.eqb c " " = false
  ∧ Ascii.eqb (lower c) "_" = false ∧ Ascii.eqb (lower c) " " = false.
Proof.
  destruct c as [[] [] [] [] [] [] [] []]; vm_compute; intros H;
    try discriminate H; repeat split.
Qed.

Lemma joined_cons c s : joined (String c s) = snake_char c +:+ joined s.
Proof. reflexivity. Qed.

Lemma starts_after_strip (s : string) :
  starts_with "_" (lstrip "_" (joined s)) = false
  ∧ starts_with "_" (replace " " "_" (lstrip "_" (joined s)))
    = starts_with " " (lstrip "_" s).
Proof.
  induction s as [|c s IH]; [done|].
  rewrite joined_cons. unfold snake_char.
  destruct (isupper c) eqn:Hup.
  - destruct (upper_facts c Hup) as (H1 & H2 & H3 & H4).
    rewrite !append_cons, append_nil. cbn. rewrite H1, H3. cbn.
    by rewrite H2, H3, H4.
  - rewrite append_cons, append_nil. cbn.
    destruct (Ascii.eqb c "_") eqn:Hu; [exact IH|].
    cbn. rewrite Hu. destruct (Ascii.eqb_spec c " ") as [->|Hsp]; [done|].
    split; [done|]. by rewrite Hu.
Qed.

Lemma replace_plain (s : string) :
  forallb plain_char (chars s) = true → replace " " "_" s = s.
Proof.
  induction s as [|c s IH]; [done|].
  intros H. cbn in H. apply andb_prop in H as [Hc Hs]. cbn. rewrite (IH Hs).
  unfold plain_char in Hc. apply andb_prop in Hc as [_ Hc].
  by destruct (Ascii.eqb c " ").
Qed.

Lemma joined_plain (s : string) :
  forallb plain_char (chars s) = true → joined s = s.
Proof.
  induction s as [|c s IH]; [done|].
  intros H. cbn in H. apply andb_prop in H as [Hc Hs].
  rewrite joined_cons, (IH Hs).
  unfold plain_char in Hc. apply andb_prop in Hc as [Hc _].
  unfold snake_char. by destruct (isupper c).
Qed.

Lemma lstrip_plain (s : string) :
  forallb plain_char (chars s) = true →
  forallb plain_char (chars (lstrip "_" s)) = true.
Proof.
  induction s as [|c s IH]; [done|].
  intros H. pose proof H as H'. cbn in H'. apply andb_prop in H' as [Hc Hs].
  cbn [lstrip]. destruct (Ascii.eqb c "_"); [by apply IH|]. exact H.
Qed.

Lemma lstrip_no_lead (s : string) :
  starts_with "_" s = false → lstrip "_" s = s.
Proof. destruct s as [|c s]; [done|]. cbn. by intros ->. Qed.

(** ** The monad and the frames of the pipeline's steps *)

Lemma bind_Ok {A B} (c : M A) (k : A → M B) w a w1 :
  c w = (Ok a, w1) → bind c k w = k a w1.
Proof. unfold bind. by intros ->. Qed.

Lemma bind_Raise {A B} (c : M A) (k : A → M B) w e w1 :
  c w = (Raise e, w1) → bind c k w = (Raise e, w1).
Proof. unfold bind. by intros ->. Qed.

Lemma attempt_ok E o w :
  fault E o = None → attempt E o w = (Ok tt, set_io (io w ++ [o]) w).
Proof. unfold attempt. by intros ->. Qed.

Lemma attempt_raise E o w msg :
  fault E o = Some msg →
  attempt E o w = (Raise (EnvError msg), set_io (io w ++ [o]) w).
Proof. unfold attempt. by intros ->. Qed.

Section Frame.
Variable R : world → world → Prop.
Hypothesis R_refl : ∀ w, R w w.
Hypothesis R_trans : ∀ a b c, R a b → R b c → R a c.

Lemma keeps_ret {A} (a : A) : keeps R (ret a).
Proof. intros w. apply R_refl. Qed.

Lemma keeps_raise {A} e : keeps R (@raise A e).
Proof. intros w. apply R_refl. Qed.

Lemma keeps_lift {A} (r : result A) : keeps R (lift r).
Proof. intros w. apply R_refl. Qed.

Lemma keeps_get_world : keeps R get_world.
Proof. intros w. apply R_refl. Qed.

Lemma keeps_bind {A B} (c : M A) (k : A → M B) :
  keeps R c → (∀ a, keeps R (k a)) → keeps R (bind c k).
Proof.
  intros Hc Hk w. unfold bind. specialize (Hc w).
  destruct (c w) as [[a|e] w1]; [|exact Hc].
  eapply R_trans; [exact Hc|apply Hk].
Qed.

Lemma keeps_try {A} (c : M A) (h : exn → M A) :
  keeps R c → (∀ e, keeps R (h e)) → keeps R (try_except c h).
Proof.
  intros Hc Hh w. unfold try_except. specialize (Hc w).
  destruct (c w) as [[a|e] w1]; [exact Hc|].
  eapply R_trans; [exact Hc|apply Hh].
Qed.

Hypothesis R_io : ∀ w l, R w (set_io l w).

Lemma keeps_attempt E o : keeps R (attempt E o).
Proof. intros w. unfold attempt. destruct (fault E o); apply R_io. Qed.
End Frame.

Lemma same_refl {X} (f : world → X) w : same f w w.
Proof. reflexivity. Qed.

Lemma same_trans {X} (f : world → X) a b c : same f a b → same f b c → same f a c.
Proof. unfold same. congruence. Qed.

Ltac keeps_step :=
  match goal with
  | |- keeps _ (bind _ _) =>
      apply keeps_bind; [apply same_trans| |intros ?]
  | |- keeps _ (try_except _ _) =>
      apply keeps_try; [apply same_trans| |intros ?]
  | |- keeps _ (ret _) => apply keeps_ret, same_refl
  | |- keeps _ (raise _) => apply keeps_raise, same_refl
  | |- keeps _ (lift _) => apply keeps_lift, same_refl
  | |- keeps _ get_world => apply keeps_get_world, same_refl
  | |- keeps _ (attempt _ _) => apply keeps_attempt; reflexivity
  | |- keeps _ (modify _) => intros ?; reflexivity
  | |- keeps _ (print _) => intros ?; reflexivity
  | |- keeps _ (if ?b then _ else _) => destruct b
  | |- keeps _ (match ?x with _ => _ end) => destruct x
  end.

Lemma write_body_tracker E url path k chunks :
  keeps (same tracker) (write_body E url path k chunks).
Proof.
  revert k. induction chunks as [|c cs IH]; intros k; cbn [write_body].
  - keeps_step.
  - unfold f_write. repeat keeps_step. apply IH.
Qed.

Lemma write_body_log E url path k chunks :
  keeps (same log) (write_body E url path k chunks).
Proof.
  revert k. induction chunks as [|c cs IH]; intros k; cbn [write_body].
  - keeps_step.
  - unfold f_write. repeat keeps_step. apply IH.
Qed.

Lemma download_tracker E url path r : keeps (same tracker) (download E url path r).
Proof. unfold download, open_wb. repeat keeps_step. apply write_body_tracker. Qed.

Lemma download_log E url path r : keeps (same log) (download E url path r).
Proof. unfold download, open_wb. repeat keeps_step. apply write_body_log. Qed.

Lemma write_chunks_tracker E temp out cols first k chunks :
  keeps (same tracker) (write_chunks E temp out cols first k chunks).
Proof.
  revert first k. induction chunks as [|c cs IH]; intros first k; cbn [write_chunks].
  - keeps_step.
  - unfold to_csv. repeat keeps_step; apply IH.
Qed.

Lemma write_chunks_log E temp out cols first k chunks :
  keeps (same log) (write_chunks E temp out cols first k chunks).
Proof.
  revert first k. induction chunks as [|c cs IH]; intros first k; cbn [write_chunks].
  - keeps_step.
  - unfold to_csv. repeat keeps_step; apply IH.
Qed.

Lemma transform_tracker E n temp out : keeps (same tracker) (transform E n temp out).
Proof. unfold transform. repeat keeps_step. apply write_chunks_tracker. Qed.

Lemma transform_log E n temp out : keeps (same log) (transform E n temp out).
Proof. unfold transform. repeat keeps_step. apply write_chunks_log. Qed.

Lemma os_remove_tracker E path : keeps (same tracker) (os_remove E path).
Proof. unfold os_remove. repeat keeps_step. Qed.

Lemma os_remove_log E path : keeps (same log) (os_remove E path).
Proof. unfold os_remove. repeat keeps_step. Qed.

(** strings *)
Lemma length_append (s t : string) :
  String.length (s +:+ t) = String.length s + String.length t.
Proof.
  induction s as [|c s IH]; [done|]. rewrite append_cons. cbn. by rewrite IH.
Qed.

Lemma append_inj_l (p s t : string) : p +:+ s = p +:+ t → s = t.
Proof.
  induction p as [|c p IH]; [done|]. rewrite !append_cons. intros [=]. auto.
Qed.

Lemma temp_output_distinct id : temp_file_of id ≠ output_path_of id.
Proof.
  unfold temp_file_of, output_path_of. intros H.
  apply (append_inj_l "data/processed/" ("temp_" +:+ id +:+ ".csv")) in H.
  apply (f_equal String.length) in H. rewrite !length_append in H. cbn in H. lia.
Qed.

Lemma eqb_append_x (tok : string) : String.eqb tok (tok +:+ "x") = false.
Proof.
  apply String.eqb_neq. intros H. apply (f_equal String.length) in H.
  rewrite length_append in H. cbn in H. lia.
Qed.

(** blocks *)
Lemma concat_blocks (n fuel : nat) (rs : list (list cell)) :
  (0 < n)%nat → (length rs ≤ fuel)%nat → concat (blocks fuel n rs) = rs.
Proof.
  intros Hn. revert rs. induction fuel as [|fuel IH]; intros rs Hlen.
  - destruct rs; [done|cbn in Hlen; lia].
  - destruct rs as [|r rs]; [done|]. cbn [blocks concat].
    rewrite IH; [apply take_drop|]. rewrite length_drop. cbn in *. lia.
Qed.

Lemma concat_read_chunks (n : nat) (rs : list (list cell)) :
  (0 < n)%nat → concat (read_chunks n rs) = rs.
Proof.
  intros Hn. destruct rs as [|r rs]; [done|].
  unfold read_chunks. by apply concat_blocks.
Qed.

Lemma read_chunks_cons n (rs : list (list cell)) :
  ∃ c cs, read_chunks n rs = c :: cs.
Proof. destruct rs as [|r rs]; cbn; eauto. Qed.

Lemma read_chunks_two (n : nat) (rs : list (list cell)) :
  (0 < n < length rs)%nat → (2 ≤ length (read_chunks n rs))%nat.
Proof.
  intros [Hn Hlt]. destruct rs as [|r rs]; [cbn in Hlt; lia|].
  unfold read_chunks. cbn [length blocks].
  destruct (drop n (r :: rs)) as [|r' rs'] eqn:Hd.
  - apply (f_equal length) in Hd. rewrite length_drop in Hd. cbn in *. lia.
  - destruct (length rs) eqn:Hl.
    + cbn in Hlt. lia.
    + cbn. lia.
Qed.

Lemma data_lines_app a b : data_lines (a ++ b) = data_lines a ++ data_lines b.
Proof. apply map_app. Qed.

Section NoFault.
Variable E : env.
Hypothesis no_fault : ∀ o, is_file_io o = true → fault E o = None.

Lemma attempt_nf o w :
  is_file_io o = true → attempt E o w = (Ok tt, set_io (io w ++ [o]) w).
Proof. intros. by apply attempt_ok, no_fault. Qed.

Lemma write_chunks_append temp out cols chunks k w old :
  files w !! out = Some old →
  ∃ l, write_chunks E temp out cols false k chunks w
       = (Ok tt, set_files (<[out := old ++ data_lines (concat chunks)]> (files w))
                   (set_io (io w ++ l) w))
     ∧ write_modes out l = repeat false (length chunks).
Proof.
  revert k w old. induction chunks as [|c cs IH]; intros k w old Hold.
  - exists [CsvChunk temp k]. cbn [write_chunks concat]. rewrite attempt_nf by done.
    split; [|done]. unfold data_lines. cbn. rewrite app_nil_r, insert_id by done.
    by destruct w.
  - cbn [write_chunks]. unfold to_csv.
    erewrite bind_Ok by by apply attempt_nf.
    erewrite bind_Ok; cycle 1.
    { erewrite bind_Ok by by apply attempt_nf. reflexivity. }
    cbn [modify]. 
    set (w1 := set_files _ _).
    destruct (IH (S k) w1 (old ++ data_lines c)) as (l & Hrun & Hmodes).
    { subst w1. cbn. rewrite Hold. cbn. apply lookup_insert_eq. }
    exists (CsvChunk temp k :: ToCsv out false k :: l). split.
    + rewrite Hrun. f_equal. subst w1. destruct w. cbn in *. rewrite Hold. cbn.
      rewrite insert_insert_eq, data_lines_app, <- !app_assoc. reflexivity.
    + unfold write_modes in *. cbn. rewrite String.eqb_refl. cbn.
      by rewrite Hmodes.
Qed.

Lemma transform_ok n temp out w content t :
  let df := read_frame t in
  (0 < n)%nat →
  files w !! temp = Some content →
  csv_parse E content = inr t →
  ∃ l, transform E n temp out w
       = (Ok tt,
          set_files (<[out := Record_ (map _to_snake_case (columns df))
                              :: data_lines (rows df)]> (files w))
            (set_io (io w ++ l) w))
     ∧ write_modes out l
       = true :: repeat false (length (read_chunks n (rows df)) - 1).
Proof.
  intros df Hn Hfile Hparse. unfold transform.
  destruct (Nat.eqb_spec n 0) as [->|_]; [lia|].
  erewrite bind_Ok by by apply attempt_nf.
  unfold bind at 1, get_world. cbn [files set_io]. rewrite Hfile, Hparse.
  fold df.
  pose proof (concat_read_chunks n (rows df) Hn) as Hcat.
  destruct (read_chunks_cons n (rows df)) as (c & cs & Hrc).
  rewrite Hrc in *. cbn [write_chunks]. unfold to_csv.
  erewrite bind_Ok by by apply attempt_nf.
  erewrite bind_Ok; cycle 1.
  { erewrite bind_Ok by by apply attempt_nf. reflexivity. }
  cbn [modify]. set (w1 := set_files _ _).
  destruct (write_chunks_append temp out (columns df) cs 1 w1
              (Record_ (map _to_snake_case (columns df)) :: data_lines c))
    as (l & Hrun & Hmodes).
  { subst w1. cbn. apply lookup_insert_eq. }
  exists (CsvOpen temp :: CsvChunk temp 0 :: ToCsv out true 0 :: l). split.
  - rewrite Hrun. f_equal. subst w1. destruct w. cbn in *.
    rewrite insert_insert_eq, <- Hcat, data_lines_app, <- !app_assoc.
    reflexivity.
  - unfold write_modes in *. cbn. rewrite String.eqb_refl. cbn.
    by rewrite Hmodes, Nat.sub_0_r.
Qed.

Lemma os_remove_ok path w content :
  files w !! path = Some content →
  os_remove E path w
  = (Ok tt, set_files (delete path (files w)) (set_io (io w ++ [Remove path]) w)).
Proof.
  intros Hfile. unfold os_remove.
  erewrite bind_Ok by by apply attempt_nf.
  unfold bind, get_world. cbn [files set_io]. by rewrite Hfile.
Qed.
End NoFault.

Section Calm.
Variable E : env.
Hypothesis calm : ∀ o, fault E o = None.

Lemma write_body_ok url path chunks k w old :
  files w !! path = Some old →
  ∃ l, write_body E url path k chunks w
       = (Ok tt, set_files (<[path := old ++ staged chunks]> (files w))
                   (set_io (io w ++ l) w)).
Proof.
  revert k w old. induction chunks as [|c cs IH]; intros k w old Hold.
  - exists [HttpChunk url k]. cbn [write_body]. rewrite attempt_ok by done.
    cbn. rewrite app_nil_r, insert_id by done. by destruct w.
  - cbn [write_body]. erewrite bind_Ok by by apply attempt_ok.
    destruct (String.eqb_spec c "") as [->|Hc].
    + unfold bind at 1, ret.
      destruct (IH (S k) (set_io (io w ++ [HttpChunk url k]) w) old Hold)
        as (l & Hrun).
      exists (HttpChunk url k :: l). rewrite Hrun. f_equal.
      destruct w. cbn. by rewrite <- app_assoc.
    + unfold f_write. erewrite bind_Ok; cycle 1.
      { erewrite bind_Ok by by apply attempt_ok. reflexivity. }
      cbn [modify]. set (w1 := set_files _ _).
      destruct (IH (S k) w1 (old ++ [Bytes c])) as (l & Hrun).
      { subst w1. cbn. rewrite Hold. cbn. apply lookup_insert_eq. }
      exists (HttpChunk url k :: FileWrite path k :: l). rewrite Hrun. f_equal.
      subst w1. cbn [staged]. apply String.eqb_neq in Hc. rewrite Hc.
      destruct w. cbn in *. rewrite Hold. cbn.
      by rewrite insert_insert_eq, <- !app_assoc.
Qed.

Lemma download_ok url path r w :
  ∃ l, download E url path r w
       = (Ok tt, set_files (<[path := staged (iter_content r)]> (files w))
                   (set_io (io w ++ l) w)).
Proof.
  unfold download, open_wb.
  erewrite bind_Ok; cycle 1.
  { erewrite bind_Ok by by apply attempt_ok. reflexivity. }
  cbn [modify]. set (w1 := set_files _ _).
  destruct (write_body_ok url path (iter_content r) 0 w1 []) as (l & Hrun).
  { subst w1. cbn. apply lookup_insert_eq. }
  exists (FileOpenWb path :: l). rewrite Hrun. f_equal.
  subst w1. destruct w. cbn. by rewrite insert_insert_eq, <- app_assoc.
Qed.
End Calm.

Lemma keeps_at {X A} (f : world → X) (c : M A) w r w' :
  keeps (same f) c → c w = (r, w') → f w' = f w.
Proof. intros Hk Hc. specialize (Hk w). by rewrite Hc in Hk. Qed.

Lemma store_cases E n id tok url r w0 :
  (∃ e w', store E n id tok url r w0 = (Raise e, w')
           ∧ tracker w' = tracker w0 ∧ log w' = log w0)
  ∨ (∃ w1 w2 w3,
        download E url (temp_file_of id) r w0 = (Ok tt, w1)
        ∧ transform E n (temp_file_of id) (output_path_of id) w1 = (Ok tt, w2)
        ∧ os_remove E (temp_file_of id) w2 = (Ok tt, w3)
        ∧ fault E (SqlReplace id) = None
        ∧ store E n id tok url r w0
          = (Ok tt, {| tracker := <[id := (tok, now E)]> (tracker w0);
                       files := files w3;
                       log := log w0 ++ [success_line id];
                       io := io w3 ++ [SqlReplace id] |})).
Proof.
  unfold store.
  destruct (download E url (temp_file_of id) r w0) as [[[]|e] w1] eqn:Hd.
  2:{ left. exists e, w1. erewrite bind_Raise by done.
      eauto using keeps_at, download_tracker, download_log. }
  pose proof (keeps_at tracker _ _ _ _ (download_tracker _ _ _ _) Hd) as Ht1.
  pose proof (keeps_at log _ _ _ _ (download_log _ _ _ _) Hd) as Hl1.
  erewrite bind_Ok by done.
  destruct (transform E n (temp_file_of id) (output_path_of id) w1)
    as [[[]|e] w2] eqn:Htr.
  2:{ left. exists e, w2. erewrite bind_Raise by done.
      rewrite <- Ht1, <- Hl1.
      eauto using keeps_at, transform_tracker, transform_log. }
  pose proof (keeps_at tracker _ _ _ _ (transform_tracker _ _ _ _) Htr) as Ht2.
  pose proof (keeps_at log _ _ _ _ (transform_log _ _ _ _) Htr) as Hl2.
  erewrite bind_Ok by done.
  destruct (os_remove E (temp_file_of id) w2) as [[[]|e] w3] eqn:Hrm.
  2:{ left. exists e, w3. erewrite bind_Raise by done.
      rewrite <- Ht1, <- Hl1, <- Ht2, <- Hl2.
      eauto using keeps_at, os_remove_tracker, os_remove_log. }
  pose proof (keeps_at tracker _ _ _ _ (os_remove_tracker _ _) Hrm) as Ht3.
  pose proof (keeps_at log _ _ _ _ (os_remove_log _ _) Hrm) as Hl3.
  erewrite bind_Ok by done.
  unfold _update_metadata.
  destruct (fault E (SqlReplace id)) as [msg|] eqn:Hf.
  - left. eexists _, _. erewrite bind_Raise; cycle 1.
    { erewrite bind_Raise by by apply attempt_raise. reflexivity. }
    split; [done|]. cbn. split; congruence.
  - right. exists w1, w2, w3. repeat split; try done.
    erewrite bind_Ok; cycle 1.
    { erewrite bind_Ok by by apply attempt_ok. reflexivity. }
    unfold print, modify, set_log, set_tracker, set_io, success_line. cbn.
    rewrite Ht3, Ht2, Ht1, Hl3, Hl2, Hl1. reflexivity.
Qed.

Lemma bind_lift_Ok {A B} (a : A) (k : A → M B) w : bind (lift (Ok a)) k w = k a w.
Proof. reflexivity. Qed.

Lemma bind_lift_Raise {A B} e (k : A → M B) w :
  bind (lift (Raise e)) k w = (Raise e, w).
Proof. reflexivity. Qed.

Lemma process_cases E n d id w :
  identifier d = Some id →
  (∃ e w', process_with E n d w = (Ok tt, w')
           ∧ tracker w' = tracker w ∧ log w' = log w ++ [error_line id e])
  ∨ (fault E (SqlSelect id) = None
     ∧ stale (tracker w) id (modified_of d) = false
     ∧ process_with E n d w
       = (Ok tt, {| tracker := tracker w; files := files w;
                    log := log w ++ [skip_line id];
                    io := io w ++ [SqlSelect id] |}))
  ∨ (∃ url,
        fault E (SqlSelect id) = None
        ∧ stale (tracker w) id (modified_of d) = true
        ∧ download_url_of d = Ok url
        ∧ fault E (HttpGet url) = None
        ∧ status_code (http E url) ≠ 200%Z
        ∧ process_with E n d w = (Ok tt, fetched w id url))
  ∨ (∃ url w1 w2 w3,
        fault E (SqlSelect id) = None
        ∧ stale (tracker w) id (modified_of d) = true
        ∧ download_url_of d = Ok url
        ∧ fault E (HttpGet url) = None
        ∧ status_code (http E url) = 200%Z
        ∧ download E url (temp_file_of id) (http E url) (fetched w id url)
          = (Ok tt, w1)
        ∧ transform E n (temp_file_of id) (output_path_of id) w1 = (Ok tt, w2)
        ∧ os_remove E (temp_file_of id) w2 = (Ok tt, w3)
        ∧ fault E (SqlReplace id) = None
        ∧ process_with E n d w
          = (Ok tt, {| tracker := <[id := (modified_of d, now E)]> (tracker w);
                       files := files w3;
                       log := log w ++ [success_line id];
                       io := io w3 ++ [SqlReplace id] |})).
Proof.
  intros Hid. unfold process_with. rewrite Hid. unfold try_except, body.
  unfold _needs_update.
  destruct (fault E (SqlSelect id)) as [msg|] eqn:Hsel.
  { left. exists (EnvError msg). eexists. erewrite bind_Raise; cycle 1.
    { erewrite bind_Raise by by apply attempt_raise. reflexivity. }
    cbn. split_and!; reflexivity. }
  erewrite bind_Ok; cycle 1.
  { erewrite bind_Ok by by apply attempt_ok. reflexivity. }
  cbn [tracker set_io].
  destruct (stale (tracker w) id (modified_of d)) eqn:Hst; cbn [negb].
  2:{ right; left. split_and!; done. }
  destruct (download_url_of d) as [url|e] eqn:Hurl.
  2:{ left. exists e. eexists. rewrite bind_lift_Raise. cbn.
      split_and!; reflexivity. }
  rewrite bind_lift_Ok.
  destruct (fault E (HttpGet url)) as [msg|] eqn:Hget.
  { left. exists (EnvError msg). eexists.
    erewrite bind_Raise by by apply attempt_raise.
    cbn. split_and!; reflexivity. }
  erewrite bind_Ok by by apply attempt_ok.
  assert (set_io (io (set_io (io w ++ [SqlSelect id]) w) ++ [HttpGet url])
            (set_io (io w ++ [SqlSelect id]) w) = fetched w id url) as ->.
  { unfold fetched. destruct w. cbn. by rewrite <- app_assoc. }
  destruct (Z.eqb_spec (status_code (http E url)) 200) as [H200|H200].
  2:{ right; right; left. exists url. split_and!; done. }
  destruct (store_cases E n id (modified_of d) url (http E url) (fetched w id url))
    as [(e & w' & Hrun & Ht & Hl)|(w1 & w2 & w3 & Hd & Htr & Hrm & Hrep & Hrun)];
    rewrite Hrun.
  - left. exists e. eexists. split; [reflexivity|]. cbn. rewrite Ht, Hl. done.
  - right; right; right. exists url, w1, w2, w3. repeat split; done.
Qed.

(** ** Runs of the pipeline *)

Lemma performed_app w l f t lg :
  performed w {| tracker := t; files := f; log := lg; io := io w ++ l |} = l.
Proof. unfold performed. cbn. by rewrite drop_app_length. Qed.

Lemma performed_set w l f :
  performed w (set_files f (set_io (io w ++ l) w)) = l.
Proof. apply performed_app. Qed.

Lemma performed_io w w' l : io w' = io w ++ l → performed w w' = l.
Proof. unfold performed. intros ->. by rewrite drop_app_length. Qed.

Lemma stale_after_insert t id tok lp : stale (<[id := (tok, lp)]> t) id tok = false.
Proof. unfold stale. by rewrite lookup_insert_eq, String.eqb_refl. Qed.



Lemma skip_run E n d id w :
  identifier d = Some id →
  fault E (SqlSelect id) = None →
  stale (tracker w) id (modified_of d) = false →
  process_with E n d w = (Ok tt, skipped w id).
Proof.
  intros Hid Hsel Hst.
  unfold process_with. rewrite Hid. unfold try_except, body, _needs_update.
  erewrite bind_Ok; cycle 1.
  { erewrite bind_Ok by by apply attempt_ok. reflexivity. }
  cbn [tracker set_io]. by rewrite Hst.
Qed.

Lemma no_identifier_run E n d w :
  identifier d = None →
  process_with E n d w = (Raise (UnboundLocalError "dataset_id"), w).
Proof. intros Hid. unfold process_with. by rewrite Hid. Qed.


Lemma quiet_run E n d w :
  (∀ url, download_url_of d = Ok url → status_code (http E url) ≠ 200%Z) →
  ∃ l, tracker (snd (process_with E n d w)) = tracker w
       ∧ files (snd (process_with E n d w)) = files w
       ∧ io (snd (process_with E n d w)) = io w ++ l
       ∧ existsb is_file_io l = false.
Proof.
  intros Hstatus. unfold process_with.
  destruct (identifier d) as [id|] eqn:Hid.
  2:{ exists []. cbn. by rewrite app_nil_r. }
  unfold try_except, body, _needs_update.
  destruct (fault E (SqlSelect id)) as [msg|] eqn:Hsel.
  { exists [SqlSelect id]. erewrite bind_Raise; cycle 1.
    { erewrite bind_Raise by by apply attempt_raise. reflexivity. }
    done. }
  erewrite bind_Ok; cycle 1.
  { erewrite bind_Ok by by apply attempt_ok. reflexivity. }
  cbn [tracker set_io].
  destruct (stale (tracker w) id (modified_of d)); cbn [negb].
  2:{ by exists [SqlSelect id]. }
  destruct (download_url_of d) as [url|e] eqn:Hurl.
  2:{ exists [SqlSelect id]. by rewrite bind_lift_Raise. }
  rewrite bind_lift_Ok.
  destruct (fault E (HttpGet url)) as [msg|] eqn:Hget.
  { exists [SqlSelect id; HttpGet url].
    erewrite bind_Raise by by apply attempt_raise.
    cbn. by rewrite <- app_assoc. }
  erewrite bind_Ok by by apply attempt_ok.
  destruct (Z.eqb_spec (status_code (http E url)) 200) as [H200|_].
  { by destruct (Hstatus url). }
  exists [SqlSelect id; HttpGet url]. cbn. by rewrite <- app_assoc.
Qed.

Lemma other_status_run E n d id url w :
  identifier d = Some id →
  download_url_of d = Ok url →
  stale (tracker w) id (modified_of d) = true →
  fault E (SqlSelect id) = None →
  fault E (HttpGet url) = None →
  status_code (http E url) ≠ 200%Z →
  process_with E n d w = (Ok tt, fetched w id url).
Proof.
  intros Hid Hurl Hst Hsel Hget H200.
  unfold process_with. rewrite Hid. unfold try_except, body, _needs_update.
  erewrite bind_Ok; cycle 1.
  { erewrite bind_Ok by by apply attempt_ok. reflexivity. }
  cbn [tracker set_io]. rewrite Hst, Hurl. cbn [negb]. rewrite bind_lift_Ok.
  erewrite bind_Ok by by apply attempt_ok.
  destruct (Z.eqb_spec (status_code (http E url)) 200) as [|_]; [done|].
  unfold ret, fetched. destruct w. cbn. by rewrite <- app_assoc.
Qed.

Lemma process_catches E n d id w :
  identifier d = Some id → fst (process_with E n d w) = Ok tt.
Proof.
  intros Hid.
  destruct (process_cases E n d id w Hid)
    as [(e & w' & Hrun & _)
       |[(_ & _ & Hrun)
        |[(url & _ & _ & _ & _ & _ & Hrun)
         |(url & w1 & w2 & w3 & _ & _ & _ & _ & _ & _ & _ & _ & _ & Hrun)]]];
    by rewrite Hrun.
Qed.

Section Succeeding.
Variable E : env.
Hypothesis calm : ∀ o, fault E o = None.

Lemma store_ok n id tok url r t w :
  let df := read_frame t in
  (0 < n)%nat →
  csv_parse E (staged (iter_content r)) = inr t →
  ∃ l, store E n id tok url r w
       = (Ok tt,
          {| tracker := <[id := (tok, now E)]> (tracker w);
             files := delete (temp_file_of id)
                        (<[output_path_of id :=
                             Record_ (map _to_snake_case (columns df))
                             :: data_lines (rows df)]>
                           (<[temp_file_of id := staged (iter_content r)]>
                              (files w)));
             log := log w ++ [success_line id];
             io := io w ++ l |}).
Proof.
  intros df Hn Hparse. unfold store.
  destruct (download_ok E calm url (temp_file_of id) r w) as (l1 & H1).
  erewrite bind_Ok by exact H1. set (w1 := set_files _ _) in *.
  destruct (transform_ok E (λ o _, calm o) n (temp_file_of id)
              (output_path_of id) w1 _ t Hn (lookup_insert_eq _ _ _) Hparse)
    as (l2 & H2 & _).
  erewrite bind_Ok by exact H2. set (w2 := set_files _ _) in *.
  erewrite bind_Ok; cycle 1.
  { eapply (os_remove_ok E (λ o _, calm o)). subst w2. cbn.
    rewrite lookup_insert_ne
      by (intros H; symmetry in H; by apply temp_output_distinct in H).
    apply lookup_insert_eq. }
  unfold _update_metadata. erewrite bind_Ok; cycle 1.
  { erewrite bind_Ok by by apply attempt_ok. reflexivity. }
  exists (l1 ++ l2 ++ [Remove (temp_file_of id); SqlReplace id]).
  unfold print, modify. f_equal. subst w2 w1. destruct w. cbn.
  f_equal. rewrite <- !app_assoc. reflexivity.
Qed.

Lemma succeeding_run n d id url t w :
  let df := read_frame t in
  identifier d = Some id →
  download_url_of d = Ok url →
  status_code (http E url) = 200%Z →
  csv_parse E (staged (iter_content (http E url))) = inr t →
  stale (tracker w) id (modified_of d) = true →
  (0 < n)%nat →
  ∃ l, process_with E n d w
       = (Ok tt,
          {| tracker := <[id := (modified_of d, now E)]> (tracker w);
             files := delete (temp_file_of id)
                        (<[output_path_of id :=
                             Record_ (map _to_snake_case (columns df))
                             :: data_lines (rows df)]>
                           (<[temp_file_of id :=
                                staged (iter_content (http E url))]>
                              (files w)));
             log := log w ++ [success_line id];
             io := io w ++ SqlSelect id :: HttpGet url :: l |}).
Proof.
  intros df Hid Hurl H200 Hparse Hst Hn.
  unfold process_with. rewrite Hid. unfold try_except, body, _needs_update.
  erewrite bind_Ok; cycle 1.
  { erewrite bind_Ok by by apply attempt_ok. reflexivity. }
  cbn [tracker set_io]. rewrite Hst, Hurl. cbn [negb]. rewrite bind_lift_Ok.
  erewrite bind_Ok by by apply attempt_ok.
  rewrite H200. cbn [Z.eqb Pos.eqb].
  match goal with |- context [store E n id ?tok url ?r ?w0] =>
    destruct (store_ok n id tok url r t w0 Hn Hparse) as (l & Hrun) end.
  rewrite Hrun. exists l.
  f_equal. destruct w. cbn. f_equal. by rewrite <- !app_assoc.
Qed.
End Succeeding.

Lemma data_lines_read_frame t :
  data_lines (rows (read_frame t))
  = map (fun r => Record_ (map written_text r)) (records t).
Proof.
  unfold data_lines, read_frame. cbn. rewrite map_map.
  apply map_ext. intros r. by rewrite map_map.
Qed.

Lemma written_plain (rs : list (list string)) :
  Forall (Forall (fun field => is_na field = false)) rs →
  map (fun r => Record_ (map written_text r)) rs = map Record_ rs.
Proof.
  induction 1 as [|r rs Hr _ IH]; [done|]. cbn. rewrite IH. do 2 f_equal.
  induction Hr as [|f r Hf _ IHr]; [done|]. cbn. rewrite IHr. f_equal.
  unfold written_text, na_filter. by rewrite Hf.
Qed.

(** ** Sample runs *)

(** The second example of the comment on lines 41-43 is not met either. *)
Example total_cost_run : _to_snake_case "Total ($) Cost" = "total_($)__cost".
Proof. reflexivity. Qed.

(** A successful run: the output is written, the staging file is gone, the
    row is recorded and the success line printed. *)
Example sample_success_run :
  let w1 := snd (_process_dataset Sample.env_plain Sample.d0 Sample.w0) in
  map_to_list (files w1)
  = [(output_path_of "ds1",
      [Record_ ["a__b"; "c"]; Record_ ["1"; "2"]; Record_ ["3"; "4"];
       Record_ ["5"; "6"]])]
  ∧ map_to_list (tracker w1) = [("ds1", ("2024-01-01", "2024-05-01T12:00:00"))]
  ∧ log w1 = ["Successfully processed ds1"].
Proof. split_and!; vm_compute; reflexivity. Qed.

(** A descriptor without a download URL: the [KeyError] is caught and
    logged with the dataset id. *)
Example sample_missing_distribution :
  _process_dataset Sample.env_ok
    {| identifier := Some "ds2"; modified := None; theme := None;
       distribution := None |} Sample.w0
  = (Ok tt,
     {| tracker := ∅; files := ∅;
        log := ["Error processing ds2: 'distribution'"];
        io := [SqlSelect "ds2"] |}).
Proof. vm_compute. reflexivity. Qed.

(** * The claims *)

(** ** Header normalizer *)

(** C7.  The code departs from the example of its own comment (line 42):
    the uppercase rule puts an underscore before [R] and [S], the spaces
    before them become underscores too, and ["Patient Rating Score"] is
    returned as ["patient__rating__score"], not ["patient_rating_score"]. *)
Theorem C7_patient_rating_score_doubles_underscores :
  _to_snake_case "Patient Rating Score" = "patient__rating__score"
  ∧ _to_snake_case "Patient Rating Score" ≠ "patient_rating_score".
Proof. split; [reflexivity|discriminate]. Qed.

(** C8, as stated, fails: ["_id"] has no uppercase letter and no space,
    and is returned as ["id"]. *)
Lemma C8_leading_underscore_not_identity :
  forallb plain_char (chars "_id") = true ∧ _to_snake_case "_id" ≠ "_id".
Proof. split; [reflexivity|discriminate]. Qed.

(** C8, amended.  A column name with no uppercase letter and no space is
    returned with its leading underscores removed; it is returned unchanged
    when it does not begin with an underscore. *)
Theorem C8_plain_name_loses_leading_underscores (s : string) :
  forallb plain_char (chars s) = true →
  _to_snake_case s = lstrip "_" s
  ∧ (starts_with "_" s = false → _to_snake_case s = s).
Proof.
  intros Hs. assert (_to_snake_case s = lstrip "_" s) as Heq.
  { unfold _to_snake_case. fold (joined s). rewrite (joined_plain s Hs).
    apply replace_plain, lstrip_plain, Hs. }
  split; [exact Heq|]. intros Hl. by rewrite Heq, lstrip_no_lead.
Qed.

Lemma C8_witness :
  forallb plain_char (chars "dataset_id") = true
  ∧ _to_snake_case "dataset_id" = lstrip "_" "dataset_id"
  ∧ (starts_with "_" "dataset_id" = false
     → _to_snake_case "dataset_id" = "dataset_id").
Proof.
  split; [reflexivity|].
  exact (C8_plain_name_loses_leading_underscores "dataset_id" eq_refl).
Defined.

(** C9, as stated, fails: the space that opens [" a"] is replaced after
    the stripping, and the result ["_a"] begins with an underscore. *)
Lemma C9_leading_space_gives_underscore :
  _to_snake_case " a" = "_a" ∧ starts_with "_" (_to_snake_case " a") = true.
Proof. split; reflexivity. Qed.

(** C9, amended.  For every input, the stripping removes every leading
    underscore of the joined string, those of the input and the one the
    uppercase rule puts before a leading capital, before the spaces are
    replaced; the result begins with an underscore exactly when the input,
    after its own leading underscores, begins with a space. *)
Theorem C9_leading_underscore_iff_leading_space (s : string) :
  starts_with "_" (lstrip "_" (joined s)) = false
  ∧ starts_with "_" (_to_snake_case s) = starts_with " " (lstrip "_" s).
Proof. apply starts_after_strip. Qed.

(** ** Version tracker *)

(** C3.  [_needs_update] answers true exactly when the table has no row
    for the id or the stored token is not the given string; so it answers
    true for an id never recorded, and after [_update_metadata id tok] it
    answers false for [tok] and true for [tok] followed by ["x"]. *)
Theorem C3_needs_update_is_string_inequality (E : env) (id tok : string) (w : world) :
  fault E (SqlSelect id) = None →
  fault E (SqlReplace id) = None →
  (∃ b, fst (_needs_update E id tok w) = Ok b
        ∧ (b = true ↔
           tracker w !! id = None
           ∨ ∃ last_modified last_processed,
               tracker w !! id = Some (last_modified, last_processed)
               ∧ last_modified ≠ tok))
  ∧ (tracker w !! id = None → fst (_needs_update E id tok w) = Ok true)
  ∧ (let w1 := snd (_update_metadata E id tok w) in
     tracker w1 !! id = Some (tok, now E)
     ∧ fst (_needs_update E id tok w1) = Ok false
     ∧ fst (_needs_update E id (tok +:+ "x") w1) = Ok true).
Proof.
  intros Hsel Hrep.
  assert (∀ t w', fst (_needs_update E id t w') = Ok (stale (tracker w') id t)) as Hrun.
  { intros t w'. unfold _needs_update.
    erewrite bind_Ok by by apply attempt_ok. reflexivity. }
  split_and!.
  - exists (stale (tracker w) id tok). split; [apply Hrun|].
    unfold stale. destruct (tracker w !! id) as [[lm lp]|] eqn:Hlk.
    + rewrite negb_true_iff, String.eqb_neq. split.
      * intros Hne. right. by exists lm, lp.
      * intros [|(lm' & lp' & [= <- <-] & Hne)]; done.
    + split; [by left|done].
  - intros Hnone. rewrite Hrun. unfold stale. by rewrite Hnone.
  - unfold _update_metadata. erewrite bind_Ok by by apply attempt_ok.
    cbn [modify snd]. rewrite !Hrun. cbn [tracker set_tracker].
    split_and!.
    + apply lookup_insert_eq.
    + by rewrite stale_after_insert.
    + unfold stale. by rewrite lookup_insert_eq, eqb_append_x.
Qed.

Lemma C3_witness :
  (∃ b, fst (_needs_update Sample.env_ok "ds1" "2024-01-01" Sample.w0) = Ok b
        ∧ (b = true ↔
           tracker Sample.w0 !! "ds1" = None
           ∨ ∃ last_modified last_processed,
               tracker Sample.w0 !! "ds1" = Some (last_modified, last_processed)
               ∧ last_modified ≠ "2024-01-01"))
  ∧ (tracker Sample.w0 !! "ds1" = None
     → fst (_needs_update Sample.env_ok "ds1" "2024-01-01" Sample.w0) = Ok true)
  ∧ (let w1 := snd (_update_metadata Sample.env_ok "ds1" "2024-01-01" Sample.w0) in
     tracker w1 !! "ds1" = Some ("2024-01-01", now Sample.env_ok)
     ∧ fst (_needs_update Sample.env_ok "ds1" "2024-01-01" w1) = Ok false
     ∧ fst (_needs_update Sample.env_ok "ds1" ("2024-01-01" +:+ "x") w1) = Ok true).
Proof.
  exact (C3_needs_update_is_string_inequality
           Sample.env_ok "ds1" "2024-01-01" Sample.w0 eq_refl eq_refl).
Defined.

(** ** Pipeline *)

(** C1.  Whatever the environment does, a run of [_process_dataset] leaves
    the tracking table as it was, unless the response had status 200 and
    the download, the chunked transform and the removal of the staging file
    all returned normally, one after the other; only then is the row of the
    dataset written, with the catalog's token and the current time.  In
    particular the table is unchanged when a step raises or the status is
    not 200. *)
Theorem C1_tracker_written_only_after_success (E : env) (d : descriptor) (w : world) :
  let w' := snd (_process_dataset E d w) in
  tracker w' = tracker w
  ∨ ∃ id url w1 w2 w3,
      identifier d = Some id
      ∧ download_url_of d = Ok url
      ∧ status_code (http E url) = 200%Z
      ∧ download E url (temp_file_of id) (http E url) (fetched w id url)
        = (Ok tt, w1)
      ∧ transform E chunksize (temp_file_of id) (output_path_of id) w1
        = (Ok tt, w2)
      ∧ os_remove E (temp_file_of id) w2 = (Ok tt, w3)
      ∧ tracker w' = <[id := (modified_of d, now E)]> (tracker w).
Proof.
  unfold _process_dataset. cbv zeta.
  destruct (identifier d) as [id|] eqn:Hid.
  2:{ left. by rewrite no_identifier_run. }
  destruct (process_cases E chunksize d id w Hid)
    as [(e & w' & Hrun & Ht & _)
       |[(_ & _ & Hrun)
        |[(url & _ & _ & _ & _ & _ & Hrun)
         |(url & w1 & w2 & w3 & _ & _ & Hurl & _ & H200 & Hd & Htr & Hrm & _ & Hrun)]]];
    rewrite Hrun; cbn [snd].
  - by left.
  - by left.
  - by left.
  - right. exists id, url, w1, w2, w3. split_and!; done.
Qed.




(** The chunk loop, for the table the reader built.  For a chunk size [n]
    with [0 < n] below the row count, and whatever the output file held
    before, the transform leaves in it one header line, the normalized
    column labels, followed by the rows of that table in order, each cell
    as its own text except that a missing-value marker is written as the
    empty field.  The first [to_csv] call is the only one in mode ['w'],
    every later one appends without a header, and the chunks put end to end
    are the rows. *)
Lemma transform_writes_reader_table (E : env) (n : nat) (id : string) (w : world)
    (content : list piece) (t : table) :
  (0 < n < length (records t))%nat →
  (∀ o, is_file_io o = true → fault E o = None) →
  files w !! temp_file_of id = Some content →
  csv_parse E content = inr t →
  let chunks := read_chunks n (rows (read_frame t)) in
  ∃ w',
    transform E n (temp_file_of id) (output_path_of id) w = (Ok tt, w')
    ∧ files w' !! output_path_of id
      = Some (Record_ (map _to_snake_case (header t))
              :: map (fun r => Record_ (map written_text r)) (records t))
    ∧ (∀ field, written_text field = if is_na field then "" else field)
    ∧ (Forall (Forall (fun field => is_na field = false)) (records t) →
       files w' !! output_path_of id
       = Some (Record_ (map _to_snake_case (header t))
               :: map Record_ (records t)))
    ∧ write_modes (output_path_of id) (performed w w')
      = true :: repeat false (length chunks - 1)
    ∧ (2 ≤ length chunks)%nat
    ∧ concat chunks = rows (read_frame t).
Proof.
  intros Hn Hnf Hfile Hparse chunks. subst chunks.
  destruct (transform_ok E Hnf n (temp_file_of id) (output_path_of id) w content t)
    as (l & Hrun & Hmodes); [lia|done..|].
  assert (files (set_files
                   (<[output_path_of id :=
                        Record_ (map _to_snake_case (columns (read_frame t)))
                        :: data_lines (rows (read_frame t))]> (files w))
                   (set_io (io w ++ l) w)) !! output_path_of id
          = Some (Record_ (map _to_snake_case (header t))
                  :: map (fun r => Record_ (map written_text r)) (records t)))
    as Hout.
  { cbn [files set_files set_io].
    rewrite lookup_insert_eq, data_lines_read_frame. reflexivity. }
  eexists. split; [exact Hrun|]. split_and!.
  - exact Hout.
  - intros field. unfold written_text, na_filter. by destruct (is_na field).
  - intros Hplain. rewrite Hout. do 2 f_equal. by apply written_plain.
  - by rewrite performed_set.
  - apply read_chunks_two. cbn. by rewrite length_map.
  - apply concat_read_chunks. lia.
Qed.

(** C4.  The code does not keep every cell as text, against the claim and
    against its own comment on line 78 ([dtype=str], no type is to be
    inferred).  The staged file has the header line [A B,C] and 5001 data
    lines, one more than the chunk size; its first data line is [3,NA].
    [pd.read_csv] is called with [na_filter] and [keep_default_na] at their
    defaults, so it reads the marker [NA] as NaN, and [to_csv] writes NaN
    as the empty field: the first data row of the output is [3,] and the
    written rows are not the input rows. *)
Theorem C4_na_cell_is_written_empty :
  let w' := snd (_process_dataset Csv.env_na Sample.d0 Sample.w0) in
  csv_parse Csv.env_na (staged Csv.body_na) = inr Csv.table_na
  ∧ (chunksize < length (records Csv.table_na))%nat
  ∧ fst (_process_dataset Csv.env_na Sample.d0 Sample.w0) = Ok tt
  ∧ files w' !! output_path_of "ds1"
    = Some (Record_ ["a__b"; "c"] :: Record_ ["3"; ""]
            :: repeat (Record_ ["1"; "2"]) 5000)
  ∧ files w' !! output_path_of "ds1"
    ≠ Some (Record_ (map _to_snake_case (header Csv.table_na))
            :: map Record_ (records Csv.table_na)).
Proof.
  cbv zeta.
  assert (files (snd (_process_dataset Csv.env_na Sample.d0 Sample.w0))
            !! output_path_of "ds1"
          = Some (Record_ ["a__b"; "c"] :: Record_ ["3"; ""]
                  :: repeat (Record_ ["1"; "2"]) 5000)) as Hout
    by (vm_compute; reflexivity).
  split_and!.
  - vm_compute. reflexivity.
  - vm_compute. lia.
  - vm_compute. reflexivity.
  - exact Hout.
  - rewrite Hout. cbn [Csv.table_na header records map]. by intros [= H].
Qed.

(** C5, at the failing input: a response with status 500 produces no log
    line. *)
Lemma C5_status_500_logs_nothing :
  status_code (http Sample.env_500 "http://cms.example/ds1.csv") = 500%Z
  ∧ _process_dataset Sample.env_500 Sample.d0 Sample.w0
    = (Ok tt, fetched Sample.w0 "ds1" "http://cms.example/ds1.csv")
  ∧ log (snd (_process_dataset Sample.env_500 Sample.d0 Sample.w0)) = [].
Proof. split_and!; vm_compute; reflexivity. Qed.

(** C5.  The code misses the log line of the claim.  When the status of
    the response is not 200, which covers every status that is not 2xx, the
    run writes no file and no tracker row and makes no file operation, as
    the claim says: the staging, transform and metadata steps are reached
    only with status 200.  But the test of line 63 has no [else]: when the
    response arrives (the tracker read and the request do not raise, the
    dataset is stale) the run returns normally and prints nothing, while
    every other outcome prints a line and the handler of line 95 logs every
    other failure. *)
Theorem C5_other_status_is_silent_noop (E : env) (d : descriptor) (w : world) :
  (∀ url, download_url_of d = Ok url → status_code (http E url) ≠ 200%Z) →
  let w' := snd (_process_dataset E d w) in
  tracker w' = tracker w
  ∧ files w' = files w
  ∧ existsb is_file_io (performed w w') = false
  ∧ (∀ id url,
       identifier d = Some id →
       download_url_of d = Ok url →
       stale (tracker w) id (modified_of d) = true →
       fault E (SqlSelect id) = None →
       fault E (HttpGet url) = None →
       _process_dataset E d w = (Ok tt, fetched w id url)
       ∧ log w' = log w).
Proof.
  intros Hstatus w'. subst w'. unfold _process_dataset.
  destruct (quiet_run E chunksize d w Hstatus) as (l & Ht & Hf & Hio & Hl).
  split_and!; [done|done|by rewrite (performed_io _ _ _ Hio)|].
  intros id url Hid Hurl Hst Hsel Hget.
  rewrite (other_status_run E chunksize d id url w) by auto. done.
Qed.

Lemma C5_witness :
  let w' := snd (_process_dataset Sample.env_500 Sample.d0 Sample.w0) in
  tracker w' = tracker Sample.w0
  ∧ files w' = files Sample.w0
  ∧ existsb is_file_io (performed Sample.w0 w') = false
  ∧ log w' = log Sample.w0.
Proof.
  destruct (C5_other_status_is_silent_noop Sample.env_500 Sample.d0 Sample.w0)
    as (Ht & Hf & Hio & Hrun).
  - intros url _. discriminate.
  - destruct (Hrun "ds1" "http://cms.example/ds1.csv"
                eq_refl eq_refl eq_refl eq_refl eq_refl) as [_ Hlog].
    exact (conj Ht (conj Hf (conj Hio Hlog))).
Defined.

(** C6.  The code misses the case of a descriptor without the key
    [identifier]: the [KeyError] of line 49 is caught, but the handler reads
    [dataset_id], which is not bound yet, so an [UnboundLocalError] leaves
    [_process_dataset] and no line is logged. *)
Theorem C6_missing_identifier_escapes_handler (E : env) (d : descriptor) (w : world) :
  identifier d = None →
  _process_dataset E d w = (Raise (UnboundLocalError "dataset_id"), w)
  ∧ log (snd (_process_dataset E d w)) = log w.
Proof. intros Hid. unfold _process_dataset. by rewrite no_identifier_run. Qed.

Lemma C6_witness :
  identifier Sample.d_no_identifier = None
  ∧ _process_dataset Sample.env_ok Sample.d_no_identifier Sample.w0
    = (Raise (UnboundLocalError "dataset_id"), Sample.w0)
  ∧ log (snd (_process_dataset Sample.env_ok Sample.d_no_identifier Sample.w0))
    = log Sample.w0.
Proof.
  split; [reflexivity|].
  exact (C6_missing_identifier_escapes_handler
           Sample.env_ok Sample.d_no_identifier Sample.w0 eq_refl).
Defined.

(** C10.  For a descriptor with an identifier and a download URL but no
    key [modified], the token is the empty string; when the table holds no
    row with that token for the id, the server answers 200 and nothing
    raises, the run returns normally, makes the request, leaves the
    transformed output and no staging file, and records the row with
    [last_modified] empty; a later run on the same descriptor is skipped. *)
Theorem C10_missing_modified_defaults_to_empty (E E2 : env) (d : descriptor)
    (id url : string) (t : table) (w : world) :
  identifier d = Some id →
  modified d = None →
  download_url_of d = Ok url →
  (∀ o, fault E o = None) →
  status_code (http E url) = 200%Z →
  csv_parse E (staged (iter_content (http E url))) = inr t →
  stale (tracker w) id "" = true →
  fault E2 (SqlSelect id) = None →
  modified_of d = ""
  ∧ ∃ w1,
      _process_dataset E d w = (Ok tt, w1)
      ∧ In (HttpGet url) (performed w w1)
      ∧ files w1 !! output_path_of id
        = Some (Record_ (map _to_snake_case (header t))
                :: map (fun r => Record_ (map written_text r)) (records t))
      ∧ files w1 !! temp_file_of id = None
      ∧ tracker w1 !! id = Some ("", now E)
      ∧ log w1 = log w ++ [success_line id]
      ∧ _process_dataset E2 d w1 = (Ok tt, skipped w1 id).
Proof.
  intros Hid Hmod Hurl Hcalm H200 Hparse Hst Hsel.
  assert (modified_of d = "") as Htok by (unfold modified_of; by rewrite Hmod).
  split; [done|]. unfold _process_dataset.
  destruct (succeeding_run E Hcalm chunksize d id url t w) as (l & Hrun);
    try done; [by rewrite Htok|unfold chunksize; lia|].
  eexists. split; [exact Hrun|]. rewrite Htok. cbn [tracker files log]. split_and!.
  - rewrite performed_app. cbn. auto.
  - rewrite lookup_delete_ne by apply temp_output_distinct.
    rewrite lookup_insert_eq, data_lines_read_frame. reflexivity.
  - apply lookup_delete_eq.
  - apply lookup_insert_eq.
  - done.
  - apply skip_run; [done..|]. cbn [tracker]. rewrite Htok.
    apply stale_after_insert.
Qed.

Lemma C10_witness :
  modified_of Sample.d_no_modified = ""
  ∧ ∃ w1,
      _process_dataset Sample.env_ok Sample.d_no_modified Sample.w0 = (Ok tt, w1)
      ∧ In (HttpGet "http://cms.example/ds1.csv") (performed Sample.w0 w1)
      ∧ files w1 !! output_path_of "ds1"
        = Some (Record_ (map _to_snake_case (header Sample.table0))
                :: map (fun r => Record_ (map written_text r))
                     (records Sample.table0))
      ∧ files w1 !! temp_file_of "ds1" = None
      ∧ tracker w1 !! "ds1" = Some ("", now Sample.env_ok)
      ∧ log w1 = log Sample.w0 ++ [success_line "ds1"]
      ∧ _process_dataset Sample.env_ok Sample.d_no_modified w1
        = (Ok tt, skipped w1 "ds1").
Proof.
  refine (C10_missing_modified_defaults_to_empty
            Sample.env_ok Sample.env_ok Sample.d_no_modified
            "ds1" "http://cms.example/ds1.csv" Sample.table0 Sample.w0
            eq_refl eq_refl eq_refl _ eq_refl eq_refl eq_refl eq_refl).
  intros o. reflexivity.
Defined.

(** * Further properties of the code *)

Lemma chars_append (s t : string) : chars (s +:+ t) = chars s ++ chars t.
Proof.
  unfold chars. induction s as [|c s IH]; [done|]. rewrite append_cons. cbn.
  by rewrite IH.
Qed.

Lemma joined_append (s t : string) : joined (s +:+ t) = joined s +:+ joined t.
Proof.
  induction s as [|c s IH]; [done|].
  rewrite append_cons, !joined_cons, IH.
  unfold snake_char. destruct (isupper c); by rewrite ?append_cons, ?append_nil.
Qed.

Lemma replace_append a b (s t : string) :
  replace a b (s +:+ t) = replace a b s +:+ replace a b t.
Proof.
  induction s as [|c s IH]; [done|]. rewrite append_cons. cbn.
  by rewrite IH, append_cons.
Qed.

Lemma lower_facts (c : ascii) :
  isupper c = true → isupper (lower c) = false.
Proof.
  destruct c as [[] [] [] [] [] [] [] []]; vm_compute; intros H;
    try discriminate H; reflexivity.
Qed.

Lemma lacks_replace (t : string) : lacks " " (replace " " "_" t) = true.
Proof.
  induction t as [|c t IH]; [done|]. unfold lacks, chars in *. cbn.
  rewrite IH, andb_true_r.
  destruct (Ascii.eqb c " ") eqn:Hc; [done|by rewrite Hc].
Qed.

Lemma no_upper_joined (s : string) : no_upper (joined s) = true.
Proof.
  induction s as [|c s IH]; [done|]. rewrite joined_cons.
  unfold no_upper in *. rewrite chars_append, forallb_app, IH, andb_true_r.
  unfold snake_char, chars. destruct (isupper c) eqn:Hc; cbn.
  - by rewrite (lower_facts c Hc).
  - by rewrite Hc.
Qed.

Lemma no_upper_lstrip ch (s : string) :
  no_upper s = true → no_upper (lstrip ch s) = true.
Proof.
  induction s as [|c s IH]; [done|]. intros H. cbn [lstrip].
  destruct (Ascii.eqb c ch); [|done]. apply IH.
  unfold no_upper, chars in *. cbn in H. by apply andb_prop in H as [_ H].
Qed.

Lemma no_upper_replace (s : string) :
  no_upper s = true → no_upper (replace " " "_" s) = true.
Proof.
  induction s as [|c s IH]; [done|]. unfold no_upper, chars in *. cbn.
  intros [Hc Hs]%andb_prop. rewrite (IH Hs), andb_true_r.
  by destruct (Ascii.eqb c " ").
Qed.

Lemma plain_of_parts (s : string) :
  no_upper s = true → lacks " " s = true → forallb plain_char (chars s) = true.
Proof.
  unfold no_upper, lacks, plain_char, chars.
  induction s as [|c s IH]; [done|]. cbn.
  intros [H1 H2]%andb_prop [H3 H4]%andb_prop. by rewrite H1, H3, IH.
Qed.

Lemma plain_normal (s : string) :
  forallb plain_char (chars s) = true → _to_snake_case s = lstrip "_" s.
Proof.
  intros Hs. unfold _to_snake_case. rewrite (joined_plain s Hs).
  apply replace_plain, lstrip_plain, Hs.
Qed.

(** X1.  Whatever the column name, the normalized name holds no space:
    [replace] turns every one of them into an underscore. *)
Theorem X1_result_has_no_space (s : string) :
  lacks " " (_to_snake_case s) = true.
Proof. apply lacks_replace. Qed.

(** X2.  Whatever the column name, the normalized name holds no uppercase
    letter: each one was lowered by the comprehension, and neither the
    stripping nor the replacement brings one back. *)
Theorem X2_result_has_no_uppercase (s : string) :
  no_upper (_to_snake_case s) = true.
Proof. apply no_upper_replace, no_upper_lstrip, no_upper_joined. Qed.

(** X3.  For a name over the code points 0..255, normalizing the already
    normalized name can only strip leading underscores from it; it changes
    nothing when the original name, after its own leading underscores, does
    not begin with a space.  (Beyond that range Python has uppercase
    characters that [lower] leaves uppercase, and the second pass puts one
    more underscore before them.) *)
Theorem X3_second_pass_only_strips (s : string) :
  _to_snake_case (_to_snake_case s) = lstrip "_" (_to_snake_case s)
  ∧ (starts_with " " (lstrip "_" s) = false →
     _to_snake_case (_to_snake_case s) = _to_snake_case s).
Proof.
  assert (_to_snake_case (_to_snake_case s) = lstrip "_" (_to_snake_case s)) as H.
  { apply plain_normal, plain_of_parts.
    - apply no_upper_replace, no_upper_lstrip, no_upper_joined.
    - apply lacks_replace. }
  split; [exact H|]. intros Hsp. rewrite H. apply lstrip_no_lead.
  unfold _to_snake_case. destruct (starts_after_strip s) as [_ ->]. exact Hsp.
Qed.

(** X4.  A name made of two capitalized words without spaces, such as
    [DatasetId], becomes the two lowered words joined by one underscore:
    the leading capital gets no underscore, the inner one gets one. *)
Theorem X4_camel_case_words (c1 c2 : ascii) (s1 s2 : string) :
  isupper c1 = true → isupper c2 = true →
  forallb plain_char (chars s1) = true →
  forallb plain_char (chars s2) = true →
  _to_snake_case (String c1 (s1 +:+ String c2 s2))
  = String (lower c1) (s1 +:+ String "_" (String (lower c2) s2)).
Proof.
  intros H1 H2 Hs1 Hs2. unfold _to_snake_case.
  rewrite joined_cons, joined_append, joined_cons.
  rewrite (joined_plain s1 Hs1), (joined_plain s2 Hs2).
  unfold snake_char. rewrite H1, H2. rewrite !append_cons, !append_nil.
  destruct (upper_facts c1 H1) as (_ & _ & Hu1 & Hsp1).
  destruct (upper_facts c2 H2) as (_ & _ & _ & Hsp2).
  cbn [lstrip]. rewrite Ascii.eqb_refl. cbn [lstrip]. rewrite Hu1.
  cbn [replace]. rewrite Hsp1, replace_append. cbn [replace].
  rewrite Hsp2, (replace_plain s1 Hs1), (replace_plain s2 Hs2). reflexivity.
Qed.

Lemma X4_witness :
  _to_snake_case "DatasetId" = "dataset_id".
Proof.
  exact (X4_camel_case_words "D" "I" "ataset" "d" eq_refl eq_refl eq_refl eq_refl).
Defined.

Lemma steady_file E : steady E → ∀ o, is_file_io o = true → fault E o = None.
Proof. intros Hst o Ho. apply Hst. by rewrite Ho, orb_true_r. Qed.

Lemma steady_net E : steady E → ∀ o, is_network o = true → fault E o = None.
Proof. intros Hst o Ho. apply Hst. by rewrite Ho. Qed.

Section Steady.
Variable E : env.
Hypothesis Hst : steady E.

Lemma write_body_steady url path chunks k w old :
  files w !! path = Some old →
  ∃ l, write_body E url path k chunks w
       = (Ok tt, set_files (<[path := old ++ staged chunks]> (files w))
                   (set_io (io w ++ l) w)).
Proof.
  revert k w old. induction chunks as [|c cs IH]; intros k w old Hold.
  - exists [HttpChunk url k]. cbn [write_body].
    rewrite attempt_ok by by apply steady_net.
    cbn. rewrite app_nil_r, insert_id by done. by destruct w.
  - cbn [write_body]. erewrite bind_Ok by by apply attempt_ok, steady_net.
    destruct (String.eqb_spec c "") as [->|Hc].
    + unfold bind at 1, ret.
      destruct (IH (S k) (set_io (io w ++ [HttpChunk url k]) w) old Hold)
        as (l & Hrun).
      exists (HttpChunk url k :: l). rewrite Hrun. f_equal.
      destruct w. cbn. by rewrite <- app_assoc.
    + unfold f_write. erewrite bind_Ok; cycle 1.
      { erewrite bind_Ok by by apply attempt_ok, steady_file. reflexivity. }
      cbn [modify]. set (w1 := set_files _ _).
      destruct (IH (S k) w1 (old ++ [Bytes c])) as (l & Hrun).
      { subst w1. cbn. rewrite Hold. cbn. apply lookup_insert_eq. }
      exists (HttpChunk url k :: FileWrite path k :: l). rewrite Hrun. f_equal.
      subst w1. cbn [staged]. apply String.eqb_neq in Hc. rewrite Hc.
      destruct w. cbn in *. rewrite Hold. cbn.
      by rewrite insert_insert_eq, <- !app_assoc.
Qed.

Lemma download_steady url path r w :
  ∃ l, download E url path r w
       = (Ok tt, set_files (<[path := staged (iter_content r)]> (files w))
                   (set_io (io w ++ l) w)).
Proof.
  unfold download, open_wb.
  erewrite bind_Ok; cycle 1.
  { erewrite bind_Ok by by apply attempt_ok, steady_file. reflexivity. }
  cbn [modify]. set (w1 := set_files _ _).
  destruct (write_body_steady url path (iter_content r) 0 w1 []) as (l & Hrun).
  { subst w1. cbn. apply lookup_insert_eq. }
  exists (FileOpenWb path :: l). rewrite Hrun. f_equal.
  subst w1. destruct w. cbn. by rewrite insert_insert_eq, <- app_assoc.
Qed.

(** The three steps before the metadata write, when the reader accepts the
    staged file. *)
Lemma staged_steps {A} (k : M A) n id url r t w :
  (0 < n)%nat →
  csv_parse E (staged (iter_content r)) = inr t →
  ∃ l,
    (download E url (temp_file_of id) r >>
     transform E n (temp_file_of id) (output_path_of id) >>
     os_remove E (temp_file_of id) >> k) w
    = k
       {| tracker := tracker w;
          files := delete (temp_file_of id)
                     (<[output_path_of id :=
                          Record_ (map _to_snake_case (header t))
                          :: map (fun r => Record_ (map written_text r))
                               (records t)]>
                        (<[temp_file_of id := staged (iter_content r)]>
                           (files w)));
          log := log w;
          io := io w ++ l |}.
Proof.
  intros Hn Hparse.
  destruct (download_steady url (temp_file_of id) r w) as (l1 & H1).
  erewrite bind_Ok by exact H1. set (w1 := set_files _ _) in *.
  destruct (transform_ok E (steady_file E Hst) n (temp_file_of id)
              (output_path_of id) w1 _ t Hn (lookup_insert_eq _ _ _) Hparse)
    as (l2 & H2 & _).
  erewrite bind_Ok by exact H2. set (w2 := set_files _ _) in *.
  erewrite bind_Ok; cycle 1.
  { eapply (os_remove_ok E (steady_file E Hst)). subst w2. cbn [files set_files set_io].
    rewrite lookup_insert_ne
      by (intros H; symmetry in H; by apply temp_output_distinct in H).
    subst w1. cbn [files set_files set_io]. apply lookup_insert_eq. }
  exists (l1 ++ l2 ++ [Remove (temp_file_of id)]).
  f_equal. subst w2 w1. destruct w. cbn [files set_files set_io tracker log io].
  rewrite data_lines_read_frame. cbn [columns read_frame].
  f_equal. by rewrite <- !app_assoc.
Qed.
End Steady.

Lemma reaches_store E n d id url w :
  identifier d = Some id →
  download_url_of d = Ok url →
  stale (tracker w) id (modified_of d) = true →
  fault E (SqlSelect id) = None →
  fault E (HttpGet url) = None →
  status_code (http E url) = 200%Z →
  process_with E n d w
  = try_except (store E n id (modified_of d) url (http E url))
      (handler (Some id)) (fetched w id url).
Proof.
  intros Hid Hurl Hstale Hsel Hget H200.
  unfold process_with. rewrite Hid. unfold try_except, body, _needs_update.
  erewrite bind_Ok; cycle 1.
  { erewrite bind_Ok by by apply attempt_ok. reflexivity. }
  cbn [tracker set_io]. rewrite Hstale, Hurl. cbn [negb]. rewrite bind_lift_Ok.
  erewrite bind_Ok by by apply attempt_ok.
  rewrite H200. cbn [Z.eqb Pos.eqb].
  replace (set_io (io (set_io (io w ++ [SqlSelect id]) w) ++ [HttpGet url])
             (set_io (io w ++ [SqlSelect id]) w)) with (fetched w id url).
  - reflexivity.
  - unfold fetched. destruct w. cbn. by rewrite <- app_assoc.
Qed.

(** X7.  When everything succeeds but the final write to the tracking
    table raises, the exception is caught and logged, the output file is
    complete and the staging file removed, yet no row is recorded: the
    dataset is still stale and the next run processes it again. *)
Theorem X7_failed_commit_leaves_output_unrecorded (E : env) (d : descriptor)
    (id url msg : string) (t : table)
    (w : world) :
  identifier d = Some id →
  download_url_of d = Ok url →
  stale (tracker w) id (modified_of d) = true →
  steady E →
  fault E (SqlSelect id) = None →
  fault E (SqlReplace id) = Some msg →
  status_code (http E url) = 200%Z →
  csv_parse E (staged (iter_content (http E url))) = inr t →
  ∃ w',
    _process_dataset E d w = (Ok tt, w')
    ∧ files w' !! output_path_of id
      = Some (Record_ (map _to_snake_case (header t))
              :: map (fun r => Record_ (map written_text r)) (records t))
    ∧ files w' !! temp_file_of id = None
    ∧ tracker w' = tracker w
    ∧ log w' = log w ++ [error_line id (EnvError msg)]
    ∧ stale (tracker w') id (modified_of d) = true.
Proof.
  intros Hid Hurl Hstale Hst Hsel Hrep H200 Hparse.
  unfold _process_dataset.
  rewrite (reaches_store E chunksize d id url w) by (try done; by apply Hst).
  unfold try_except, store.
  destruct (staged_steps E Hst
              (_update_metadata E id (modified_of d) >> print (success_line id))
              chunksize id url (http E url) t (fetched w id url))
    as (l & ->); [unfold chunksize; lia|done|].
  unfold _update_metadata.
  erewrite bind_Raise; cycle 1.
  { erewrite bind_Raise by by apply attempt_raise. reflexivity. }
  eexists. split; [reflexivity|]. cbn [files tracker log set_io set_log].
  split_and!; try done.
  - rewrite lookup_delete_ne by apply temp_output_distinct.
    apply lookup_insert_eq.
  - apply lookup_delete_eq.
Qed.

Lemma X7_witness :
  ∃ w',
    _process_dataset Faulty.env_db_locked Sample.d0 Sample.w0 = (Ok tt, w')
    ∧ files w' !! output_path_of "ds1"
      = Some (Record_ (map _to_snake_case (header Sample.table1))
              :: map (fun r => Record_ (map written_text r))
                   (records Sample.table1))
    ∧ files w' !! temp_file_of "ds1" = None
    ∧ tracker w' = tracker Sample.w0
    ∧ log w' = log Sample.w0
               ++ [error_line "ds1" (EnvError "database is locked")]
    ∧ stale (tracker w') "ds1" (modified_of Sample.d0) = true.
Proof.
  refine (X7_failed_commit_leaves_output_unrecorded
            Faulty.env_db_locked Sample.d0 "ds1" "http://cms.example/ds1.csv"
            "database is locked" Sample.table1 Sample.w0
            eq_refl eq_refl eq_refl _ eq_refl eq_refl eq_refl eq_refl).
  intros o Ho. destruct o; try reflexivity; discriminate Ho.
Defined.

(** X11.  When the download succeeds and the CSV reader rejects the
    staged file, the error is logged and nothing is cleaned up: the staging
    file stays on disk with the downloaded body, the output file and the
    tracking table are as they were. *)
Theorem X11_rejected_csv_leaves_staging_file (E : env) (d : descriptor)
    (id url msg : string) (w : world) :
  identifier d = Some id →
  download_url_of d = Ok url →
  stale (tracker w) id (modified_of d) = true →
  steady E →
  fault E (SqlSelect id) = None →
  status_code (http E url) = 200%Z →
  csv_parse E (staged (iter_content (http E url))) = inl msg →
  ∃ w',
    _process_dataset E d w = (Ok tt, w')
    ∧ files w' = <[temp_file_of id := staged (iter_content (http E url))]> (files w)
    ∧ files w' !! output_path_of id = files w !! output_path_of id
    ∧ tracker w' = tracker w
    ∧ log w' = log w ++ [error_line id (EnvError msg)].
Proof.
  intros Hid Hurl Hstale Hst Hsel H200 Hparse.
  unfold _process_dataset.
  rewrite (reaches_store E chunksize d id url w) by (try done; by apply Hst).
  unfold try_except, store.
  destruct (download_steady E Hst url (temp_file_of id) (http E url)
              (fetched w id url)) as (l1 & H1).
  erewrite bind_Ok by exact H1.
  erewrite bind_Raise; cycle 1.
  { unfold transform. cbn [Nat.eqb chunksize].
    erewrite bind_Ok by by apply attempt_ok, steady_file.
    unfold bind, get_world. cbn [files set_files set_io].
    rewrite lookup_insert_eq, Hparse. reflexivity. }
  eexists. split; [reflexivity|].
  cbn [files tracker log set_io set_log set_files fetched handler print modify].
  split_and!; try done.
  apply lookup_insert_ne. intros H. by apply temp_output_distinct in H.
Qed.

Lemma X11_witness :
  ∃ w',
    _process_dataset Faulty.env_bad_csv Sample.d0 Sample.w0 = (Ok tt, w')
    ∧ files w'
      = <[temp_file_of "ds1" :=
            staged (iter_content (http Faulty.env_bad_csv "http://cms.example/ds1.csv"))]>
          (files Sample.w0)
    ∧ files w' !! output_path_of "ds1" = files Sample.w0 !! output_path_of "ds1"
    ∧ tracker w' = tracker Sample.w0
    ∧ log w' = log Sample.w0
               ++ [error_line "ds1" (EnvError "No columns to parse from file")].
Proof.
  refine (X11_rejected_csv_leaves_staging_file
            Faulty.env_bad_csv Sample.d0 "ds1" "http://cms.example/ds1.csv"
            "No columns to parse from file" Sample.w0
            eq_refl eq_refl eq_refl _ eq_refl eq_refl eq_refl).
  intros o _. reflexivity.
Defined.

Lemma steady_success E n d id url t w :
  identifier d = Some id →
  download_url_of d = Ok url →
  stale (tracker w) id (modified_of d) = true →
  steady E →
  fault E (SqlSelect id) = None →
  fault E (SqlReplace id) = None →
  status_code (http E url) = 200%Z →
  csv_parse E (staged (iter_content (http E url))) = inr t →
  (0 < n)%nat →
  ∃ l,
    process_with E n d w
    = (Ok tt,
       {| tracker := <[id := (modified_of d, now E)]> (tracker w);
          files := delete (temp_file_of id)
                     (<[output_path_of id :=
                          Record_ (map _to_snake_case (header t))
                          :: map (fun r => Record_ (map written_text r))
                               (records t)]>
                        (files w));
          log := log w ++ [success_line id];
          io := io w ++ SqlSelect id :: HttpGet url :: l |}).
Proof.
  intros Hid Hurl Hstale Hst Hsel Hrep H200 Hparse Hn.
  rewrite (reaches_store E n d id url w) by (try done; by apply Hst).
  unfold try_except, store.
  destruct (staged_steps E Hst
              (_update_metadata E id (modified_of d) >> print (success_line id))
              n id url (http E url) t (fetched w id url))
    as (l & ->); [done..|].
  unfold _update_metadata.
  erewrite bind_Ok; cycle 1.
  { erewrite bind_Ok by by apply attempt_ok. reflexivity. }
  exists (l ++ [SqlReplace id]). unfold print, modify. f_equal.
  destruct w. unfold set_log, set_tracker, set_io, set_files, fetched.
  cbn [files tracker log io].
  rewrite !(delete_insert_ne _ (temp_file_of id) (output_path_of id))
    by apply temp_output_distinct.
  rewrite delete_insert_eq. f_equal. cbn. by rewrite <- !app_assoc.
Qed.



(** X14.  After a successful run, a run on a descriptor of the same id
    whose token differs makes the request again and, when it succeeds,
    replaces the output file by the new content and the row by the new
    token and time; the table holds one row for the id. *)
Theorem X14_new_token_reprocesses (E1 E2 : env) (d1 d2 : descriptor)
    (id url1 url2 : string)
    (t1 t2 : table) (w : world) :
  identifier d1 = Some id → identifier d2 = Some id →
  download_url_of d1 = Ok url1 → download_url_of d2 = Ok url2 →
  modified_of d1 ≠ modified_of d2 →
  stale (tracker w) id (modified_of d1) = true →
  steady E1 → steady E2 →
  fault E1 (SqlSelect id) = None → fault E1 (SqlReplace id) = None →
  fault E2 (SqlSelect id) = None → fault E2 (SqlReplace id) = None →
  status_code (http E1 url1) = 200%Z → status_code (http E2 url2) = 200%Z →
  csv_parse E1 (staged (iter_content (http E1 url1))) = inr t1 →
  csv_parse E2 (staged (iter_content (http E2 url2))) = inr t2 →
  let w1 := snd (_process_dataset E1 d1 w) in
  let w2 := snd (_process_dataset E2 d2 w1) in
  In (HttpGet url2) (performed w1 w2)
  ∧ tracker w2 = <[id := (modified_of d2, now E2)]> (tracker w)
  ∧ files w2 !! output_path_of id
    = Some (Record_ (map _to_snake_case (header t2))
            :: map (fun r => Record_ (map written_text r)) (records t2))
  ∧ log w2 = log w ++ [success_line id; success_line id].
Proof.
  intros Hid1 Hid2 Hu1 Hu2 Hne Hstale Hs1 Hs2 Hsel1 Hrep1 Hsel2 Hrep2
    H200a H200b Hp1 Hp2.
  unfold _process_dataset.
  destruct (steady_success E1 chunksize d1 id url1 t1 w) as (l1 & Hrun1);
    [done..|unfold chunksize; lia|].
  rewrite Hrun1. cbn [snd]. set (w1 := Build_world _ _ _ _).
  destruct (steady_success E2 chunksize d2 id url2 t2 w1) as (l2 & Hrun2);
    [try done..|unfold chunksize; lia|].
  { subst w1. cbn [tracker]. unfold stale. rewrite lookup_insert_eq.
    by apply negb_true_iff, String.eqb_neq. }
  rewrite Hrun2. cbn [snd]. split_and!.
  - rewrite performed_app. cbn. auto.
  - subst w1. cbn [tracker]. apply insert_insert_eq.
  - cbn [files].
    rewrite lookup_delete_ne by apply temp_output_distinct.
    apply lookup_insert_eq.
  - subst w1. cbn [log]. by rewrite <- app_assoc.
Qed.

Lemma X14_witness :
  let w1 := snd (_process_dataset Sample.env_plain Sample.d0 Sample.w0) in
  let w2 := snd (_process_dataset Faulty.env_later Faulty.d0_newer w1) in
  In (HttpGet "http://cms.example/ds1.csv") (performed w1 w2)
  ∧ tracker w2
    = <["ds1" := (modified_of Faulty.d0_newer, now Faulty.env_later)]>
        (tracker Sample.w0)
  ∧ files w2 !! output_path_of "ds1"
    = Some (Record_ (map _to_snake_case (header Sample.table0))
            :: map (fun r => Record_ (map written_text r))
                 (records Sample.table0))
  ∧ log w2 = log Sample.w0 ++ [success_line "ds1"; success_line "ds1"].
Proof.
  refine (X14_new_token_reprocesses Sample.env_plain Faulty.env_later
            Sample.d0 Faulty.d0_newer "ds1" "http://cms.example/ds1.csv" "http://cms.example/ds1.csv"
            Sample.table1 Sample.table0 Sample.w0
            eq_refl eq_refl eq_refl eq_refl _ eq_refl _ _
            eq_refl eq_refl eq_refl eq_refl eq_refl eq_refl eq_refl eq_refl).
  - discriminate.
  - intros o _. reflexivity.
  - intros o _. reflexivity.
Defined.

Lemma raw_bytes_staged (chunks : list string) :
  raw_bytes (staged chunks) = join chunks.
Proof.
  unfold raw_bytes, join. induction chunks as [|c cs IH]; [done|].
  cbn [staged]. destruct (String.eqb_spec c "") as [->|_].
  - by rewrite IH.
  - cbn. by rewrite IH.
Qed.

(** X15.  When no network or file operation raises, [download] leaves in
    the staging file exactly the non-empty chunks of the body, in order and
    whatever the file held before: its bytes are the bytes of the body. *)
Theorem X15_download_stages_body (E : env) (url path : string) (r : response)
    (w : world) :
  steady E →
  ∃ w',
    download E url path r w = (Ok tt, w')
    ∧ files w' = <[path := staged (iter_content r)]> (files w)
    ∧ raw_bytes (staged (iter_content r)) = join (iter_content r)
    ∧ tracker w' = tracker w
    ∧ log w' = log w.
Proof.
  intros Hst. destruct (download_steady E Hst url path r w) as (l & Hrun).
  eexists. split; [exact Hrun|]. split_and!; try done.
  apply raw_bytes_staged.
Qed.

Lemma X15_witness :
  ∃ w',
    download Sample.env_plain "http://cms.example/ds1.csv" (temp_file_of "ds1")
      (http Sample.env_plain "http://cms.example/ds1.csv") Sample.w_staged = (Ok tt, w')
    ∧ files w'
      = <[temp_file_of "ds1" := staged (iter_content (http Sample.env_plain "http://cms.example/ds1.csv"))]>
          (files Sample.w_staged)
    ∧ raw_bytes (staged (iter_content (http Sample.env_plain "http://cms.example/ds1.csv")))
      = join (iter_content (http Sample.env_plain "http://cms.example/ds1.csv"))
    ∧ tracker w' = tracker Sample.w_staged
    ∧ log w' = log Sample.w_staged.
Proof.
  refine (X15_download_stages_body Sample.env_plain "http://cms.example/ds1.csv" (temp_file_of "ds1")
            (http Sample.env_plain "http://cms.example/ds1.csv") Sample.w_staged _).
  intros o _. reflexivity.
Defined.

Lemma write_body_break E url path msg k :
  (∀ i, fault E (FileWrite path i) = None) →
  ∀ chunks j w old,
    files w !! path = Some old →
    (∀ i, (i < k)%nat → fault E (HttpChunk url (j + i)) = None) →
    fault E (HttpChunk url (j + k)) = Some msg →
    (k ≤ length chunks)%nat →
    ∃ l, write_body E url path j chunks w
         = (Raise (EnvError msg),
            set_files (<[path := old ++ staged (take k chunks)]> (files w))
              (set_io (io w ++ l) w)).
Proof.
  intros Hwr. induction k as [|k IH]; intros chunks j w old Hold Hok Hbad Hlen.
  - rewrite Nat.add_0_r in Hbad. exists [HttpChunk url j].
    rewrite take_0. cbn [staged]. rewrite app_nil_r, insert_id by done.
    destruct chunks as [|c cs]; cbn [write_body].
    + rewrite (attempt_raise _ _ _ msg) by done. by destruct w.
    + erewrite bind_Raise by by apply attempt_raise. by destruct w.
  - destruct chunks as [|c cs]; [cbn in Hlen; lia|]. cbn [write_body].
    assert (fault E (HttpChunk url j) = None) as Hj.
    { rewrite <- (Nat.add_0_r j). apply Hok. lia. }
    erewrite bind_Ok by by apply attempt_ok.
    assert (∀ i, (i < k)%nat → fault E (HttpChunk url (S j + i)) = None) as Hok'.
    { intros i Hi. replace (S j + i)%nat with (j + S i)%nat by lia.
      apply Hok. lia. }
    assert (fault E (HttpChunk url (S j + k)) = Some msg) as Hbad'.
    { by replace (S j + k)%nat with (j + S k)%nat by lia. }
    cbn [take staged].
    destruct (String.eqb_spec c "") as [->|Hc].
    + unfold bind at 1, ret.
      destruct (IH cs (S j) (set_io (io w ++ [HttpChunk url j]) w) old)
        as (l & Hrun); [done..|cbn in Hlen; lia|].
      exists (HttpChunk url j :: l). rewrite Hrun. f_equal.
      destruct w. cbn. by rewrite <- app_assoc.
    + unfold f_write. erewrite bind_Ok; cycle 1.
      { erewrite bind_Ok by by apply attempt_ok. reflexivity. }
      cbn [modify]. set (w1 := set_files _ _).
      destruct (IH cs (S j) w1 (old ++ [Bytes c])) as (l & Hrun);
        [|done..|cbn in Hlen; lia|].
      { subst w1. cbn. rewrite Hold. cbn. apply lookup_insert_eq. }
      exists (HttpChunk url j :: FileWrite path j :: l). rewrite Hrun. f_equal.
      subst w1. destruct w. cbn in *. rewrite Hold. cbn.
      by rewrite insert_insert_eq, <- !app_assoc.
Qed.

(** X21.  When the body stream raises on its [k]-th pull, [download]
    raises with the staging file holding the non-empty chunks received
    before it; the tracking table and the log are unchanged. *)
Theorem X21_broken_stream_leaves_partial_staging (E : env)
    (url path msg : string) (r : response) (k : nat)
    (w : world) :
  fault E (FileOpenWb path) = None →
  (∀ i, fault E (FileWrite path i) = None) →
  (∀ i, (i < k)%nat → fault E (HttpChunk url i) = None) →
  fault E (HttpChunk url k) = Some msg →
  (k ≤ length (iter_content r))%nat →
  ∃ w',
    download E url path r w = (Raise (EnvError msg), w')
    ∧ files w' = <[path := staged (take k (iter_content r))]> (files w)
    ∧ tracker w' = tracker w
    ∧ log w' = log w.
Proof.
  intros Hopen Hwr Hok Hbad Hlen. unfold download, open_wb.
  erewrite bind_Ok; cycle 1.
  { erewrite bind_Ok by by apply attempt_ok. reflexivity. }
  cbn [modify]. set (w1 := set_files _ _).
  destruct (write_body_break E url path msg k Hwr (iter_content r) 0 w1 [])
    as (l & Hrun); [|done..|].
  { subst w1. cbn. apply lookup_insert_eq. }
  rewrite Hrun. eexists. split; [reflexivity|].
  subst w1. cbn [files tracker log set_files set_io]. split_and!; try done.
  apply insert_insert_eq.
Qed.

Lemma X21_witness :
  ∃ w',
    download Faulty.env_broken_stream "http://cms.example/ds1.csv" (temp_file_of "ds1")
      (http Faulty.env_broken_stream "http://cms.example/ds1.csv") Sample.w0
    = (Raise (EnvError "Connection broken"), w')
    ∧ files w'
      = <[temp_file_of "ds1" :=
            staged (take 2 (iter_content (http Faulty.env_broken_stream "http://cms.example/ds1.csv")))]>
          (files Sample.w0)
    ∧ tracker w' = tracker Sample.w0
    ∧ log w' = log Sample.w0.
Proof.
  refine (X21_broken_stream_leaves_partial_staging Faulty.env_broken_stream
            "http://cms.example/ds1.csv" (temp_file_of "ds1") "Connection broken"
            (http Faulty.env_broken_stream "http://cms.example/ds1.csv") 2 Sample.w0
            eq_refl _ _ eq_refl _).
  - intros i. reflexivity.
  - intros i Hi. destruct i as [|[|i]]; [reflexivity|reflexivity|lia].
  - cbn. lia.
Defined.

(** X5.  [_update_metadata] for one id, whether it succeeds or raises,
    leaves every other row of the table, the files and the log as they
    were, so [_needs_update] answers the same for every other id. *)
Theorem X5_update_touches_one_row (E E' : env) (id tok : string)
    (w : world) :
  let w' := snd (_update_metadata E id tok w) in
  other_rows id w w'
  ∧ files w' = files w
  ∧ log w' = log w
  ∧ (∀ id' tok', id' ≠ id →
       fst (_needs_update E' id' tok' w') = fst (_needs_update E' id' tok' w)).
Proof.
  cbv zeta. unfold _update_metadata, _needs_update, bind, attempt, modify,
    get_world, ret, other_rows.
  destruct (fault E (SqlReplace id)); cbn.
  - split_and!; try done. intros id' tok' _. by destruct (fault E' (SqlSelect id')).
  - split_and!; try done.
    + intros id' Hne. by apply lookup_insert_ne.
    + intros id' tok' Hne. destruct (fault E' (SqlSelect id')); [done|].
      cbn. unfold stale. by rewrite lookup_insert_ne.
Qed.

(** X6.  Two successive [_update_metadata] on the same id leave the one
    row of the second: the table is as if only the second had been made,
    its token is no longer stale and the first token, if different, is. *)
Theorem X6_last_update_wins (E1 E2 : env) (id tok1 tok2 : string)
    (w : world) :
  fault E1 (SqlReplace id) = None →
  fault E2 (SqlReplace id) = None →
  let w2 := snd (_update_metadata E2 id tok2
                   (snd (_update_metadata E1 id tok1 w))) in
  tracker w2 = <[id := (tok2, now E2)]> (tracker w)
  ∧ stale (tracker w2) id tok2 = false
  ∧ (tok1 ≠ tok2 → stale (tracker w2) id tok1 = true).
Proof.
  intros H1 H2. cbv zeta. unfold _update_metadata.
  erewrite (bind_Ok _ _ w) by by apply attempt_ok.
  cbn [modify snd]. erewrite bind_Ok by by apply attempt_ok.
  cbn [modify snd tracker set_tracker set_io]. rewrite insert_insert_eq.
  split_and!; [done|apply stale_after_insert|].
  intros Hne. unfold stale. rewrite lookup_insert_eq.
  apply negb_true_iff, String.eqb_neq. congruence.
Qed.

Lemma X6_witness :
  let w2 := snd (_update_metadata Faulty.env_later "ds1" "2024-02-15"
                   (snd (_update_metadata Sample.env_ok "ds1" "2024-01-01"
                           Sample.w0))) in
  tracker w2 = <["ds1" := ("2024-02-15", now Faulty.env_later)]> (tracker Sample.w0)
  ∧ stale (tracker w2) "ds1" "2024-02-15" = false
  ∧ ("2024-01-01" ≠ "2024-02-15" → stale (tracker w2) "ds1" "2024-01-01" = true).
Proof.
  exact (X6_last_update_wins Sample.env_ok Faulty.env_later
           "ds1" "2024-01-01" "2024-02-15" Sample.w0 eq_refl eq_refl).
Defined.

Lemma append_inj_suffix (u s t : string) : s +:+ u = t +:+ u → s = t.
Proof.
  revert t. induction s as [|c s IH]; intros [|c' t] H.
  - done.
  - apply (f_equal String.length) in H. rewrite append_nil, append_cons in H.
    cbn in H. rewrite length_append in H. lia.
  - apply (f_equal String.length) in H. rewrite append_nil, append_cons in H.
    cbn in H. rewrite length_append in H. lia.
  - rewrite !append_cons in H. injection H as -> H. f_equal. by apply IH.
Qed.

Lemma append_assoc (a b c : string) : (a +:+ b) +:+ c = a +:+ (b +:+ c).
Proof. induction a as [|x a IH]; [done|]. rewrite !append_cons. by rewrite IH. Qed.

(** X16.  Different dataset ids have different output files and
    different staging files; but the staging file of an id is the output
    file of the id [temp_<id>], and of no other. *)
Theorem X16_paths_of_ids (a b : string) :
  (output_path_of a = output_path_of b ↔ a = b)
  ∧ (temp_file_of a = temp_file_of b ↔ a = b)
  ∧ (temp_file_of a = output_path_of b ↔ b = "temp_" +:+ a).
Proof.
  unfold output_path_of, temp_file_of. split_and!; split; try (by intros ->).
  - intros H%append_inj_l. by apply append_inj_suffix in H.
  - intros H%append_inj_l. by apply append_inj_suffix in H.
  - intros H. apply (append_inj_l "data/processed/" ("temp_" +:+ a +:+ ".csv")) in H.
    rewrite <- append_assoc in H. by apply append_inj_suffix in H.
Qed.

Lemma is_hospital_spec d :
  is_hospital d = true ↔ ∃ th, theme d = Some th ∧ In "Hospitals" th.
Proof.
  unfold is_hospital. rewrite existsb_exists. split.
  - intros (x & Hin & Heq). apply String.eqb_eq in Heq. subst x.
    destruct (theme d) as [th|]; [by exists th|done].
  - intros (th & -> & Hin). exists "Hospitals". split; [done|].
    apply String.eqb_refl.
Qed.

(** X19.  [process_data] selects exactly the catalog entries whose [theme]
    list holds the string [Hospitals], in catalog order; an entry without a
    [theme] key is left out, not an error. *)
Theorem X19_hospital_selection (data : list descriptor) :
  (∀ d, In d (hospital_datasets data)
        ↔ In d data ∧ ∃ th, theme d = Some th ∧ In "Hospitals" th)
  ∧ sublist (hospital_datasets data) data
  ∧ (∀ d, theme d = None → ¬ In d (hospital_datasets data)).
Proof.
  unfold hospital_datasets. split_and!.
  - intros d. by rewrite filter_In, is_hospital_spec.
  - induction data as [|d data IH]; [constructor|]. cbn.
    destruct (is_hospital d); by constructor.
  - intros d Hnone [_ Hh]%filter_In. apply is_hospital_spec in Hh as (th & Hth & _).
    congruence.
Qed.

Lemma blocks_shape (n fuel : nat) (rs : list (list cell)) :
  (0 < n)%nat → (length rs ≤ fuel)%nat → rs ≠ [] →
  Forall (fun c => (0 < length c ≤ n)%nat) (blocks fuel n rs)
  ∧ (n * (length (blocks fuel n rs) - 1) < length rs
     ≤ n * length (blocks fuel n rs))%nat.
Proof.
  intros Hn. revert rs. induction fuel as [|fuel IH]; intros rs Hlen Hne.
  - destruct rs; [done|cbn in Hlen; lia].
  - destruct rs as [|r rs]; [done|]. cbn [blocks].
    destruct (decide (drop n (r :: rs) = [])) as [Hd|Hd].
    + rewrite Hd. assert (length (r :: rs) ≤ n)%nat as Hle.
      { apply (f_equal length) in Hd. rewrite length_drop in Hd. cbn in *. lia. }
      destruct fuel; cbn [blocks length].
      * split; [|cbn in *; lia]. constructor; [|constructor].
        rewrite length_take. cbn in *. lia.
      * split; [|cbn in *; lia]. constructor; [|constructor].
        rewrite length_take. cbn in *. lia.
    + destruct (IH (drop n (r :: rs))) as [Hall Hcount]; [|done|].
      { rewrite length_drop. cbn in *. lia. }
      rewrite length_drop in Hcount. split.
      * constructor; [|done]. rewrite length_take. cbn in *. lia.
      * cbn [length]. cbn [length] in Hcount. nia.
Qed.

(** X18.  With a chunk size [n >= 1] no chunk holds more than [n] rows,
    and the chunks put end to end are the rows; when there is a row, no
    chunk is empty and their number is the row count divided by [n],
    rounded up. *)
Theorem X18_chunks_are_bounded (n : nat) (rs : list (list cell)) :
  (0 < n)%nat →
  Forall (fun c => (length c ≤ n)%nat) (read_chunks n rs)
  ∧ concat (read_chunks n rs) = rs
  ∧ (rs ≠ [] →
     Forall (fun c => c ≠ []) (read_chunks n rs)
     ∧ (n * (length (read_chunks n rs) - 1) < length rs
        ≤ n * length (read_chunks n rs))%nat).
Proof.
  intros Hn. split_and!.
  - destruct rs as [|r rs]; [repeat constructor; cbn; lia|].
    unfold read_chunks.
    destruct (blocks_shape n (length (r :: rs)) (r :: rs)) as [Hall _];
      [done..|].
    eapply Forall_impl; [exact Hall|]. cbn. intros; lia.
  - by apply concat_read_chunks.
  - intros Hne. destruct rs as [|r rs]; [done|]. unfold read_chunks.
    destruct (blocks_shape n (length (r :: rs)) (r :: rs)) as [Hall Hcount];
      [done..|].
    split; [|exact Hcount].
    eapply Forall_impl; [exact Hall|]. cbn. intros c Hc ->. cbn in Hc. lia.
Qed.

Lemma X18_witness :
  Forall (fun c => (length c ≤ 2)%nat)
    (read_chunks 2 (rows (read_frame Sample.table1)))
  ∧ concat (read_chunks 2 (rows (read_frame Sample.table1)))
    = rows (read_frame Sample.table1)
  ∧ (rows (read_frame Sample.table1) ≠ [] →
     Forall (fun c => c ≠ []) (read_chunks 2 (rows (read_frame Sample.table1)))
     ∧ (2 * (length (read_chunks 2 (rows (read_frame Sample.table1))) - 1)
        < length (rows (read_frame Sample.table1))
        ≤ 2 * length (read_chunks 2 (rows (read_frame Sample.table1))))%nat).
Proof. apply X18_chunks_are_bounded. lia. Defined.



Lemma download_url_errors d e :
  download_url_of d = Raise e →
  (distribution d = None ∧ e = KeyError "distribution")
  ∨ (distribution d = Some [] ∧ e = IndexError)
  ∨ (∃ d0 rest, distribution d = Some (d0 :: rest) ∧ downloadURL d0 = None
                ∧ e = KeyError "downloadURL").
Proof.
  unfold download_url_of. destruct (distribution d) as [[|d0 rest]|].
  - intros [= <-]. right; left. done.
  - destruct (downloadURL d0) eqn:Hd0; [done|]. intros [= <-].
    right; right. by exists d0, rest.
  - intros [= <-]. by left.
Qed.

(** X9.  When the dataset is stale and
    [dataset['distribution'][0]['downloadURL']] raises (no [distribution]
    key, an empty list, or no [downloadURL] key in the first entry), the run
    makes no request and touches no file or row; it prints the error line
    with the [KeyError] or [IndexError] message. *)
Theorem X9_malformed_distribution_is_logged (E : env) (d : descriptor)
    (id : string) (e : exn) (w : world) :
  identifier d = Some id →
  download_url_of d = Raise e →
  stale (tracker w) id (modified_of d) = true →
  fault E (SqlSelect id) = None →
  _process_dataset E d w
  = (Ok tt, {| tracker := tracker w; files := files w;
               log := log w ++ [error_line id e];
               io := io w ++ [SqlSelect id] |})
  ∧ ((distribution d = None ∧ str e = "'distribution'")
     ∨ (distribution d = Some [] ∧ str e = "list index out of range")
     ∨ (∃ d0 rest, distribution d = Some (d0 :: rest)
                   ∧ downloadURL d0 = None ∧ str e = "'downloadURL'")).
Proof.
  intros Hid Hurl Hstale Hsel. split.
  - unfold _process_dataset, process_with. rewrite Hid.
    unfold try_except, body, _needs_update.
    erewrite bind_Ok; cycle 1.
    { erewrite bind_Ok by by apply attempt_ok. reflexivity. }
    cbn [tracker set_io]. rewrite Hstale, Hurl. cbn [negb].
    rewrite bind_lift_Raise. reflexivity.
  - destruct (download_url_errors d e Hurl)
      as [[H ->]|[[H ->]|(d0 & rest & H & H0 & ->)]]; eauto 10.
Qed.

Lemma X9_witness :
  _process_dataset Sample.env_ok Faulty.d_no_distribution Sample.w0
  = (Ok tt, {| tracker := tracker Sample.w0; files := files Sample.w0;
               log := log Sample.w0
                      ++ [error_line "ds2" (KeyError "distribution")];
               io := io Sample.w0 ++ [SqlSelect "ds2"] |})
  ∧ ((distribution Faulty.d_no_distribution = None
      ∧ str (KeyError "distribution") = "'distribution'")
     ∨ (distribution Faulty.d_no_distribution = Some []
        ∧ str (KeyError "distribution") = "list index out of range")
     ∨ (∃ d0 rest, distribution Faulty.d_no_distribution = Some (d0 :: rest)
                   ∧ downloadURL d0 = None
                   ∧ str (KeyError "distribution") = "'downloadURL'")).
Proof.
  exact (X9_malformed_distribution_is_logged Sample.env_ok
           Faulty.d_no_distribution "ds2" (KeyError "distribution") Sample.w0
           eq_refl eq_refl eq_refl eq_refl).
Defined.

(** X20.  When the GET itself raises, the run touches no file and no row;
    it prints the error line with the dataset id and the message, and
    returns normally. *)
Theorem X20_connection_error_is_logged (E : env) (d : descriptor)
    (id url msg : string) (w : world) :
  identifier d = Some id →
  download_url_of d = Ok url →
  stale (tracker w) id (modified_of d) = true →
  fault E (SqlSelect id) = None →
  fault E (HttpGet url) = Some msg →
  _process_dataset E d w
  = (Ok tt, {| tracker := tracker w; files := files w;
               log := log w ++ [error_line id (EnvError msg)];
               io := io w ++ [SqlSelect id; HttpGet url] |}).
Proof.
  intros Hid Hurl Hstale Hsel Hget.
  unfold _process_dataset, process_with. rewrite Hid.
  unfold try_except, body, _needs_update.
  erewrite bind_Ok; cycle 1.
  { erewrite bind_Ok by by apply attempt_ok. reflexivity. }
  cbn [tracker set_io]. rewrite Hstale, Hurl. cbn [negb].
  rewrite bind_lift_Ok. erewrite bind_Raise by by apply attempt_raise.
  cbn. by rewrite <- app_assoc.
Qed.

Lemma X20_witness :
  _process_dataset Faulty.env_unreachable Sample.d0 Sample.w0
  = (Ok tt, {| tracker := tracker Sample.w0; files := files Sample.w0;
               log := log Sample.w0
                      ++ [error_line "ds1" (EnvError "Connection refused")];
               io := io Sample.w0 ++ [SqlSelect "ds1"; HttpGet "http://cms.example/ds1.csv"] |}).
Proof.
  exact (X20_connection_error_is_logged Faulty.env_unreachable Sample.d0
           "ds1" "http://cms.example/ds1.csv" "Connection refused" Sample.w0
           eq_refl eq_refl eq_refl eq_refl eq_refl).
Defined.

Lemma outside_refl ps w : outside ps w w.
Proof. by intros p _. Qed.

Lemma outside_trans ps a b c : outside ps a b → outside ps b c → outside ps a c.
Proof. intros H1 H2 p Hp. by rewrite H2, H1. Qed.

Lemma outside_io ps w l : outside ps w (set_io l w).
Proof. by intros p _. Qed.

Lemma outside_insert ps path content w :
  path ∈ ps → outside ps w (set_files (<[path := content]> (files w)) w).
Proof.
  intros Hin p Hp. cbn. apply lookup_insert_ne. intros ->. by apply Hp.
Qed.

Ltac outside_step :=
  match goal with
  | |- keeps _ (bind _ _) => apply keeps_bind; [apply outside_trans| |intros ?]
  | |- keeps _ (try_except _ _) =>
      apply keeps_try; [apply outside_trans| |intros ?]
  | |- keeps _ (ret _) => apply keeps_ret, outside_refl
  | |- keeps _ (raise _) => apply keeps_raise, outside_refl
  | |- keeps _ (lift _) => apply keeps_lift, outside_refl
  | |- keeps _ get_world => apply keeps_get_world, outside_refl
  | |- keeps _ (attempt _ _) => apply keeps_attempt, outside_io
  | |- keeps _ (print _) => by intros ? ? ?
  | |- keeps _ (handler _ _) => unfold handler
  | |- keeps _ (_needs_update _ _ _) => unfold _needs_update
  | |- keeps _ (_update_metadata _ _ _) => unfold _update_metadata
  | |- keeps _ (modify (fun w => set_files (<[_ := _]> (files w)) w)) =>
      intros ?; apply outside_insert; set_solver
  | |- keeps _ (modify _) => by intros ? ? ?
  | |- keeps _ (if ?b then _ else _) => destruct b
  | |- keeps _ (match ?x with _ => _ end) => destruct x
  end.

Lemma write_body_outside ps E url path k chunks :
  path ∈ ps → keeps (outside ps) (write_body E url path k chunks).
Proof.
  intros Hin. revert k.
  induction chunks as [|c cs IH]; intros k; cbn [write_body].
  - outside_step.
  - unfold f_write. repeat outside_step. apply IH.
Qed.

Lemma write_chunks_outside ps E temp out cols first k chunks :
  out ∈ ps → keeps (outside ps) (write_chunks E temp out cols first k chunks).
Proof.
  intros Hin. revert first k.
  induction chunks as [|c cs IH]; intros first k; cbn [write_chunks].
  - outside_step.
  - unfold to_csv. repeat outside_step; apply IH.
Qed.

Lemma os_remove_outside ps E path :
  path ∈ ps → keeps (outside ps) (os_remove E path).
Proof.
  intros Hin w. unfold os_remove, bind, attempt, get_world.
  destruct (fault E (Remove path)); [apply outside_io|].
  cbn [files set_io]. destruct (files w !! path); [|apply outside_io].
  intros p Hp. cbn. apply lookup_delete_ne. intros ->. by apply Hp.
Qed.

Lemma process_outside E n d id :
  identifier d = Some id →
  keeps (outside [temp_file_of id; output_path_of id]) (process_with E n d).
Proof.
  intros Hid. unfold process_with. rewrite Hid.
  unfold body, store, download, open_wb, transform.
  repeat outside_step.
  - apply write_body_outside. set_solver.
  - apply write_chunks_outside. set_solver.
  - apply os_remove_outside. set_solver.
Qed.

(** X10.  Whatever the environment does, a run for a dataset changes no
    file other than the staging file and the output file of its id, and no
    row of the tracking table other than that of its id; without an
    identifier it changes nothing at all. *)
Theorem X10_run_touches_own_files_and_row (E : env) (d : descriptor) (w : world) :
  let w' := snd (_process_dataset E d w) in
  match identifier d with
  | Some id =>
      outside [temp_file_of id; output_path_of id] w w' ∧ other_rows id w w'
  | None => w' = w
  end.
Proof.
  cbv zeta. unfold _process_dataset.
  destruct (identifier d) as [id|] eqn:Hid.
  2:{ by rewrite no_identifier_run. }
  split; [by apply process_outside|].
  intros id' Hne.
  destruct (process_cases E chunksize d id w Hid)
    as [(e & w' & Hrun & Ht & _)
       |[(_ & _ & Hrun)
        |[(url & _ & _ & _ & _ & _ & Hrun)
         |(url & w1 & w2 & w3 & _ & _ & _ & _ & _ & _ & _ & _ & _ & Hrun)]]];
    rewrite Hrun; cbn [snd tracker]; try done.
  - by rewrite Ht.
  - by apply lookup_insert_ne.
Qed.

Lemma read_chunks_first (n : nat) (rs : list (list cell)) :
  (0 < n < length rs)%nat →
  ∃ c2 cs, read_chunks n rs = take n rs :: c2 :: cs.
Proof.
  intros [Hn Hlt]. destruct rs as [|r rs]; [cbn in Hlt; lia|].
  unfold read_chunks. cbn [length blocks].
  destruct (drop n (r :: rs)) as [|r' rs'] eqn:Hd.
  - apply (f_equal length) in Hd. rewrite length_drop in Hd. cbn in *. lia.
  - destruct (length rs) eqn:Hl; [cbn in Hlt; lia|]. cbn [blocks]. eauto.
Qed.

(** X12.  When the reader raises on its second pull, the transform has
    already replaced the output file: it holds the header line and the first
    [n] rows only, whatever it held before; the staging file is still there
    and the tracking table unchanged. *)
Theorem X12_failure_on_second_chunk_leaves_partial_output (E : env) (n : nat)
    (id msg : string) (w : world)
    (content : list piece) (t : table) :
  (0 < n < length (records t))%nat →
  files w !! temp_file_of id = Some content →
  csv_parse E content = inr t →
  fault E (CsvOpen (temp_file_of id)) = None →
  fault E (CsvChunk (temp_file_of id) 0) = None →
  fault E (ToCsv (output_path_of id) true 0) = None →
  fault E (CsvChunk (temp_file_of id) 1) = Some msg →
  ∃ w',
    transform E n (temp_file_of id) (output_path_of id) w
    = (Raise (EnvError msg), w')
    ∧ files w' !! output_path_of id
      = Some (Record_ (map _to_snake_case (header t))
              :: map (fun r => Record_ (map written_text r))
                   (take n (records t)))
    ∧ files w' !! temp_file_of id = Some content
    ∧ tracker w' = tracker w
    ∧ log w' = log w.
Proof.
  intros Hn Hfile Hparse Hopen Hc0 Hw0 Hc1. unfold transform.
  destruct (Nat.eqb_spec n 0) as [->|_]; [lia|].
  erewrite bind_Ok by by apply attempt_ok.
  unfold bind at 1, get_world. cbn [files set_io]. rewrite Hfile, Hparse.
  destruct (read_chunks_first n (rows (read_frame t))) as (c2 & cs & ->).
  { cbn. by rewrite length_map. }
  cbn [write_chunks]. unfold to_csv.
  erewrite bind_Ok by by apply attempt_ok.
  erewrite bind_Ok; cycle 1.
  { erewrite bind_Ok by by apply attempt_ok. reflexivity. }
  cbn [modify].
  erewrite bind_Raise by by apply attempt_raise.
  eexists. split; [reflexivity|].
  cbn [files tracker log set_files set_io]. split_and!; try done.
  - rewrite lookup_insert_eq. cbn [read_frame rows columns csv_lines app].
    rewrite firstn_map. unfold data_lines. rewrite map_map. do 2 f_equal.
    apply map_ext. intros r. unfold written_text. by rewrite map_map.
  - rewrite lookup_insert_ne; [done|].
    intros H. symmetry in H. by apply temp_output_distinct in H.
Qed.

Lemma X12_witness :
  ∃ w',
    transform Faulty.env_truncated 2 (temp_file_of "ds1") (output_path_of "ds1")
      Sample.w_staged
    = (Raise (EnvError "Error tokenizing data"), w')
    ∧ files w' !! output_path_of "ds1"
      = Some (Record_ (map _to_snake_case (header Sample.table1))
              :: map (fun r => Record_ (map written_text r))
                   (take 2 (records Sample.table1)))
    ∧ files w' !! temp_file_of "ds1" = Some (staged Sample.body0)
    ∧ tracker w' = tracker Sample.w_staged
    ∧ log w' = log Sample.w_staged.
Proof.
  refine (X12_failure_on_second_chunk_leaves_partial_output
            Faulty.env_truncated 2 "ds1" "Error tokenizing data"
            Sample.w_staged (staged Sample.body0) Sample.table1
            _ _ eq_refl eq_refl eq_refl eq_refl eq_refl).
  - cbn. lia.
  - vm_compute. reflexivity.
Defined.

(** X17.  For a staged file with a header line and no data line, the
    reader gives one empty chunk: the output file is replaced by the
    normalized header line alone, in a single [to_csv] call in mode ['w']. *)
Theorem X17_header_only_file (E : env) (n : nat) (id : string) (w : world)
    (content : list piece) (t : table) :
  (0 < n)%nat →
  records t = [] →
  (∀ o, is_file_io o = true → fault E o = None) →
  files w !! temp_file_of id = Some content →
  csv_parse E content = inr t →
  ∃ w',
    transform E n (temp_file_of id) (output_path_of id) w = (Ok tt, w')
    ∧ files w' !! output_path_of id
      = Some [Record_ (map _to_snake_case (header t))]
    ∧ write_modes (output_path_of id) (performed w w') = [true].
Proof.
  intros Hn Hrec Hnf Hfile Hparse.
  destruct (transform_ok E Hnf n (temp_file_of id) (output_path_of id) w content t)
    as (l & Hrun & Hmodes); [done..|].
  eexists. split; [exact Hrun|]. split.
  - cbn [files set_files set_io]. rewrite lookup_insert_eq.
    cbn [read_frame rows columns]. by rewrite Hrec.
  - rewrite performed_set, Hmodes. cbn [read_frame rows]. by rewrite Hrec.
Qed.

Lemma X17_witness :
  ∃ w',
    transform Faulty.env_header_only chunksize (temp_file_of "ds1")
      (output_path_of "ds1") Sample.w_staged = (Ok tt, w')
    ∧ files w' !! output_path_of "ds1"
      = Some [Record_ (map _to_snake_case (header Faulty.table_empty))]
    ∧ write_modes (output_path_of "ds1") (performed Sample.w_staged w') = [true].
Proof.
  refine (X17_header_only_file Faulty.env_header_only chunksize "ds1"
            Sample.w_staged (staged Sample.body0) Faulty.table_empty
            _ eq_refl _ _ eq_refl).
  - unfold chunksize. lia.
  - intros o _. reflexivity.
  - vm_compute. reflexivity.
Defined.
